(** * GPIO lab program: LED pattern selector and display routines

    A shallow embedding of the LED driver and pattern code of [GPIO.c] (TI
    MSP432 LaunchPad with the PMOD SWT slide switches and the PMOD 8LD LED
    bank): the output functions, the switch status function, the five
    display routines and [LED_Controller].  The port output registers are
    8-bit values kept in a record, the volatile switch input register is a
    stream of samples, and every register write, blocking delay and switch
    sample is appended to a chronological trace.  The routines are written in
    a small state monad whose computations stop early when the loop fuel runs
    out (the source has a [while(1)] loop); the world reached so far is kept
    in that case, so that unfinished runs can be observed too. *)

From Stdlib Require Import ZArith List Bool Lia.
Import ListNotations.
Local Open Scope Z_scope.

(** ** Data model *)

(** The ports whose output register the driver writes: P1 (onboard red LED,
    and the pull-ups of the two buttons), P2 (tri-color LED), P9 (PMOD 8LD).
    P10 (PMOD SWT) is only read. *)
Inductive Port : Type := P1 | P2 | P9.

(** What an observer of the board sees, in program order. *)
Inductive Event : Type :=
| EvWrite (p : Port) (v : Z)   (* [p->OUT = v] *)
| EvDelay (ms : Z)             (* [Clock_Delay1ms(ms)] *)
| EvRead (raw : Z).            (* a sample of [P10->IN] *)

(** Register file and environment.  The [OUT] and [IN] registers of a port
    are 8 bits wide (they are declared in the device header [msp.h]).
    [P10_IN k] is the value the volatile input register [P10->IN] holds at
    the [k]-th time the program reads it; [reads] counts the samples taken so
    far. *)
Record World : Type := mkWorld {
  P1_OUT : Z;
  P2_OUT : Z;
  P9_OUT : Z;
  P10_IN : nat -> Z;
  reads : nat;
  trace : list Event
}.

(** Conversion to [uint8_t]. *)
Definition uint8 (v : Z) : Z := v mod 256.

(** ** The monad of register programs

    A computation maps a world to an optional result and the world reached.
    [None] means that the loop fuel was used up before the routine returned;
    the world then holds everything done up to that point. *)
Definition M (A : Type) : Type := World -> option A * World.

Definition ret {A : Type} (a : A) : M A := fun w => (Some a, w).

Definition bind {A B : Type} (c : M A) (k : A -> M B) : M B :=
  fun w =>
    match c w with
    | (Some a, w') => k a w'
    | (None, w') => (None, w')
    end.

Definition out_of_fuel {A : Type} : M A := fun w => (None, w).

Declare Scope gpio_scope.
Delimit Scope gpio_scope with gpio.
Notation "x <- c ;; k" := (bind c (fun x => k))
  (at level 61, c at next level, right associativity) : gpio_scope.
Notation "c ;; k" := (bind c (fun _ => k))
  (at level 61, right associativity) : gpio_scope.
Local Open Scope gpio_scope.

(** Final world and returned value of a run. *)
Definition world_of {A : Type} (r : option A * World) : World := snd r.
Definition value_of {A : Type} (r : option A * World) : option A := fst r.

(** ** Register access primitives *)

Definition emit (e : Event) (w : World) : World :=
  mkWorld (P1_OUT w) (P2_OUT w) (P9_OUT w) (P10_IN w) (reads w) (trace w ++ [e]).

(** Reading an output register returns the value last stored. *)
Definition get_OUT (p : Port) : M Z :=
  fun w =>
    (Some match p with
          | P1 => P1_OUT w
          | P2 => P2_OUT w
          | P9 => P9_OUT w
          end, w).

(** [p->OUT = v]: the value is converted to the 8 bits of the register (this
    is also where an [int] argument such as [led_count] is narrowed). *)
Definition set_OUT (p : Port) (v : Z) : M unit :=
  fun w =>
    let v8 := uint8 v in
    let w' :=
      match p with
      | P1 => mkWorld v8 (P2_OUT w) (P9_OUT w) (P10_IN w) (reads w) (trace w)
      | P2 => mkWorld (P1_OUT w) v8 (P9_OUT w) (P10_IN w) (reads w) (trace w)
      | P9 => mkWorld (P1_OUT w) (P2_OUT w) v8 (P10_IN w) (reads w) (trace w)
      end in
    (Some tt, emit (EvWrite p v8) w').

(** A read of the volatile register [P10->IN]: takes the next sample. *)
Definition get_P10_IN : M Z :=
  fun w =>
    let raw := P10_IN w (reads w) in
    (Some raw,
     emit (EvRead raw)
       (mkWorld (P1_OUT w) (P2_OUT w) (P9_OUT w) (P10_IN w) (S (reads w)) (trace w))).

(** Modelled from the spec: [Clock_Delay1ms] is declared in [inc/Clock.h],
    which is not part of the sources; the spec describes it as a blocking
    delay parameterized in milliseconds.  It changes no register and is
    recorded in the trace. *)
Definition Clock_Delay1ms (ms : Z) : M unit :=
  fun w => (Some tt, emit (EvDelay ms) w).

(** ** Constants of [GPIO.c] *)

Definition RED_LED_OFF : Z := 0x00.
Definition RED_LED_ON : Z := 0x01.

Definition RGB_LED_OFF : Z := 0x00.
Definition RGB_LED_RED : Z := 0x01.
Definition RGB_LED_GREEN : Z := 0x02.
Definition RGB_LED_YELLOW : Z := 0x03.
Definition RGB_LED_BLUE : Z := 0x04.
Definition RGB_LED_PINK : Z := 0x05.
Definition RGB_LED_SKY_BLUE : Z := 0x06.
Definition RGB_LED_WHITE : Z := 0x07.

Definition PMOD_8LD_ALL_OFF : Z := 0x00.
Definition PMOD_8LD_ALL_ON : Z := 0xFF.

(** ** Driver functions of [GPIO.c] *)

(** [P1->OUT = (P1->OUT & 0xFE) | led_value;] *)
Definition LED1_Output (led_value : Z) : M unit :=
  out <- get_OUT P1 ;;
  set_OUT P1 (Z.lor (Z.land out 0xFE) led_value).

(** [return P1->OUT & 0x01;] *)
Definition LED1_Status : M Z :=
  out <- get_OUT P1 ;;
  ret (Z.land out 0x01).

(** [P2->OUT = (P2->OUT & 0xF8) | led_value;] *)
Definition LED2_Output (led_value : Z) : M unit :=
  out <- get_OUT P2 ;;
  set_OUT P2 (Z.lor (Z.land out 0xF8) led_value).

(** [return P2->OUT & 0x07;] *)
Definition LED2_Status : M Z :=
  out <- get_OUT P2 ;;
  ret (Z.land out 0x07).

(** [P9->OUT = led_value; return P9->OUT;] *)
Definition PMOD_8LD_Output (led_value : Z) : M Z :=
  set_OUT P9 led_value ;;
  get_OUT P9.

(** [return P10->IN & 0xF;] *)
Definition Get_PMOD_SWT_Status : M Z :=
  raw <- get_P10_IN ;;
  ret (Z.land raw 0xF).

(** ** Loops

    The body of a loop says whether it ran to its end or executed [break]. *)
Inductive Flow : Type := Continue | Break.

(** How a [for] loop was left: its condition became false, or by [break]. *)
Inductive LoopExit : Type := ExitCond | ExitBreak.

(** [for (i = i0; cond(i); i = next(i)) body(i)], one unit of fuel per
    iteration. *)
Fixpoint for_loop (fuel : nat) (cond : Z -> bool) (next : Z -> Z)
    (body : Z -> M Flow) (i : Z) : M LoopExit :=
  if cond i then
    match fuel with
    | O => out_of_fuel
    | S fuel' =>
        flow <- body i ;;
        match flow with
        | Break => ret ExitBreak
        | Continue => for_loop fuel' cond next body (next i)
        end
    end
  else ret ExitCond.

(** [while(1) body], one unit of fuel per iteration; left only by [break]. *)
Fixpoint while_1 (fuel : nat) (body : M Flow) : M unit :=
  match fuel with
  | O => out_of_fuel
  | S fuel' =>
      flow <- body ;;
      match flow with
      | Break => ret tt
      | Continue => while_1 fuel' body
      end
  end.

(** ** Display routines *)

(** [switch(button_status)] with the cases 0x00 (both buttons pressed), 0x10
    (button 1 pressed), 0x02 (button 2 pressed) and 0x12 (none pressed), and
    no [default]. *)
Definition LED_Pattern_1 (button_status : Z) : M unit :=
  if button_status =? 0x00 then
    PMOD_8LD_Output PMOD_8LD_ALL_OFF ;;
    LED1_Output RED_LED_ON ;;
    LED2_Output RGB_LED_GREEN ;;
    Clock_Delay1ms 1000 ;;
    LED1_Output RED_LED_OFF ;;
    LED2_Output RGB_LED_OFF ;;
    Clock_Delay1ms 1000
  else if button_status =? 0x10 then
    LED1_Output RED_LED_ON ;;
    LED2_Output RGB_LED_OFF ;;
    PMOD_8LD_Output 0x55 ;;
    ret tt
  else if button_status =? 0x02 then
    LED1_Output RED_LED_OFF ;;
    LED2_Output RGB_LED_PINK ;;
    PMOD_8LD_Output 0xAA ;;
    ret tt
  else if button_status =? 0x12 then
    LED1_Output RED_LED_OFF ;;
    LED2_Output RGB_LED_OFF ;;
    PMOD_8LD_Output PMOD_8LD_ALL_ON ;;
    ret tt
  else ret tt.

(** Body of the loop of [LED_Pattern_2]: write the bank, wait, resample the
    switches, [if (switch_status != 0x01) break;]. *)
Definition LED_Pattern_2_body (led_count : Z) : M Flow :=
  PMOD_8LD_Output led_count ;;
  Clock_Delay1ms 100 ;;
  switch_status <- Get_PMOD_SWT_Status ;;
  if negb (switch_status =? 0x01) then ret Break else ret Continue.

(** [for (int led_count = 0; led_count <= 0xFF; led_count++)]; the counter
    stays within 0..256, far from the range of [int]. *)
Definition LED_Pattern_2_loop (fuel : nat) : M LoopExit :=
  for_loop fuel (fun led_count => led_count <=? 0xFF)
    (fun led_count => led_count + 1) LED_Pattern_2_body 0.

Definition LED_Pattern_2 (fuel : nat) : M unit :=
  LED1_Output RED_LED_ON ;;
  LED2_Output RGB_LED_RED ;;
  LED_Pattern_2_loop fuel ;;
  ret tt.

Definition LED_Pattern_3_body (led_count : Z) : M Flow :=
  PMOD_8LD_Output led_count ;;
  Clock_Delay1ms 100 ;;
  switch_status <- Get_PMOD_SWT_Status ;;
  if negb (switch_status =? 0x02) then ret Break else ret Continue.

(** [for (int led_count = 0xFF; led_count >= 0; led_count--)] *)
Definition LED_Pattern_3_loop (fuel : nat) : M LoopExit :=
  for_loop fuel (fun led_count => led_count >=? 0)
    (fun led_count => led_count - 1) LED_Pattern_3_body 0xFF.

Definition LED_Pattern_3 (fuel : nat) : M unit :=
  LED1_Output RED_LED_OFF ;;
  LED2_Output RGB_LED_BLUE ;;
  LED_Pattern_3_loop fuel ;;
  ret tt.

(** Body of the [while(1)] loop of [LED_Pattern_4]. *)
Definition LED_Pattern_4_body : M Flow :=
  PMOD_8LD_Output PMOD_8LD_ALL_ON ;;
  LED1_Output RED_LED_ON ;;
  LED2_Output RGB_LED_BLUE ;;
  Clock_Delay1ms 1000 ;;
  PMOD_8LD_Output PMOD_8LD_ALL_OFF ;;
  LED1_Output RED_LED_OFF ;;
  LED2_Output RGB_LED_OFF ;;
  Clock_Delay1ms 1000 ;;
  switch_status <- Get_PMOD_SWT_Status ;;
  if negb (switch_status =? 0x04) then ret Break else ret Continue.

Definition LED_Pattern_4 (fuel : nat) : M unit :=
  while_1 fuel LED_Pattern_4_body.

Definition LED_Pattern_5_body (led_count : Z) : M Flow :=
  PMOD_8LD_Output led_count ;;
  Clock_Delay1ms 500 ;;
  switch_status <- Get_PMOD_SWT_Status ;;
  if negb (switch_status =? 0x08) then ret Break else ret Continue.

(** [for (int led_count = 0x01; led_count <= 128; led_count = led_count * 2)] *)
Definition LED_Pattern_5_loop (fuel : nat) : M LoopExit :=
  for_loop fuel (fun led_count => led_count <=? 128)
    (fun led_count => led_count * 2) LED_Pattern_5_body 0x01.

Definition LED_Pattern_5 (fuel : nat) : M unit :=
  LED1_Output RED_LED_OFF ;;
  LED2_Output RGB_LED_OFF ;;
  LED_Pattern_5_loop fuel ;;
  ret tt.

(** ** Pattern selector *)

(** [switch(switch_status)] with the cases 0x00, 0x01, 0x02, 0x04, 0x08 and a
    [default] that runs pattern 1. *)
Definition LED_Controller (fuel : nat) (button_status switch_status : Z) : M unit :=
  if switch_status =? 0x00 then LED_Pattern_1 button_status
  else if switch_status =? 0x01 then LED_Pattern_2 fuel
  else if switch_status =? 0x02 then LED_Pattern_3 fuel
  else if switch_status =? 0x04 then LED_Pattern_4 fuel
  else if switch_status =? 0x08 then LED_Pattern_5 fuel
  else LED_Pattern_1 button_status.

(** ** Auxiliary definitions used in the statements *)

(** A board after reset of the modelled registers, with the switch input
    held at [raw] forever. *)
Definition board (raw : Z) : World :=
  mkWorld 0 0 0 (fun _ => raw) 0 [].

(** The switch code the program obtains from its [k]-th next sample. *)
Definition switch_code (w : World) (k : nat) : Z :=
  Z.land (P10_IN w (reads w + k)) 0xF.

(** The visible part of one iteration of a counting loop, followed by the
    switch sample that ends it. *)
Definition counting_iteration (ms led_count : Z) : M Z :=
  PMOD_8LD_Output led_count ;;
  Clock_Delay1ms ms ;;
  Get_PMOD_SWT_Status.

Definition after_step (ms led_count : Z) (w : World) : World :=
  world_of (counting_iteration ms led_count w).

(** World after [n] complete iterations started at counter value [i]. *)
Fixpoint after_steps (ms : Z) (next : Z -> Z) (n : nat) (i : Z) (w : World) : World :=
  match n with
  | O => w
  | S n' => after_steps ms next n' (next i) (after_step ms i w)
  end.

(** Events of [n] iterations that write [val 0], [val 1], ... to the bank. *)
Definition counting_trace (ms : Z) (val : nat -> Z) (w : World) (n : nat) : list Event :=
  flat_map (fun k => [EvWrite P9 (val k); EvDelay ms; EvRead (P10_IN w (reads w + k))])
    (seq 0 n).

(** World in which the loop of pattern 2 (resp. 3, 5) is entered. *)
Definition LED_Pattern_2_entry (w : World) : World :=
  world_of ((LED1_Output RED_LED_ON ;; LED2_Output RGB_LED_RED) w).

Definition LED_Pattern_3_entry (w : World) : World :=
  world_of ((LED1_Output RED_LED_OFF ;; LED2_Output RGB_LED_BLUE) w).

Definition LED_Pattern_5_entry (w : World) : World :=
  world_of ((LED1_Output RED_LED_OFF ;; LED2_Output RGB_LED_OFF) w).

(** A switch input that reads [first] for the first [n] samples and [rest]
    from then on. *)
Definition switch_flip (n : nat) (first rest : Z) : World :=
  mkWorld 0 0 0 (fun k => if (k <? n)%nat then first else rest) 0 [].

(** One iteration of the [while(1)] loop of pattern 4 up to and including
    its switch sample, and the world it leaves. *)
Definition blink_iteration : M Z :=
  PMOD_8LD_Output PMOD_8LD_ALL_ON ;;
  LED1_Output RED_LED_ON ;;
  LED2_Output RGB_LED_BLUE ;;
  Clock_Delay1ms 1000 ;;
  PMOD_8LD_Output PMOD_8LD_ALL_OFF ;;
  LED1_Output RED_LED_OFF ;;
  LED2_Output RGB_LED_OFF ;;
  Clock_Delay1ms 1000 ;;
  Get_PMOD_SWT_Status.

Definition after_blink (w : World) : World :=
  world_of (blink_iteration w).

(** One iteration of a counting loop as it appears on the trace: a bank
    write, the delay, and last the switch sample [raw]. *)
Definition counting_block (ms raw : Z) (blk : list Event) : Prop :=
  exists v, blk = [EvWrite P9 v; EvDelay ms; EvRead raw].

(** One iteration of pattern 4 on the trace: the on phase, the off phase, and
    last the switch sample [raw]. *)
Definition blink_block (raw : Z) (blk : list Event) : Prop :=
  exists on1 on2 off1 off2,
    blk = [EvWrite P9 PMOD_8LD_ALL_ON; EvWrite P1 on1; EvWrite P2 on2; EvDelay 1000;
           EvWrite P9 PMOD_8LD_ALL_OFF; EvWrite P1 off1; EvWrite P2 off2; EvDelay 1000;
           EvRead raw].

(** The body of a loop samples last: run from any world it returns, having
    added exactly the events of one iteration, of which the switch sample is
    the last and the only one; it asks for the next iteration exactly when
    that sample read [code], and for [break] otherwise. *)
Definition iteration_samples_last (block : Z -> list Event -> Prop) (code : Z)
    (body : M Flow) : Prop :=
  forall w, exists blk w',
    body w = (Some (if switch_code w 0 =? code then Continue else Break), w')
    /\ trace w' = trace w ++ blk
    /\ block (P10_IN w (reads w)) blk
    /\ reads w' = S (reads w)
    /\ P10_IN w' = P10_IN w.

(** A routine samples after the effect: whatever the switches do and for
    every number [fuel] of loop iterations it is observed for, its events are
    one write to each of [setup_ports] followed by whole iterations, iteration
    [k] ending with the routine's [k]-th sample, and it has taken no other
    sample; it goes on past a sample only if that sample read [code]; it
    returns only after at least one whole iteration, on a sample different
    from [code] or after [bound] iterations; and when it has not returned it
    has run all [fuel] iterations, every sample having read [code]. *)
Definition sample_follows_effect (block : Z -> list Event -> Prop) (code : Z)
    (setup_ports : list Port) (bound : option nat) (fuel : nat) (c : M unit) : Prop :=
  forall w, exists setup blocks,
    let r := c w in
    trace (world_of r) = trace w ++ setup ++ concat blocks
    /\ Forall2 (fun p e => exists v, e = EvWrite p v) setup_ports setup
    /\ (forall k blk, nth_error blocks k = Some blk ->
                      block (P10_IN w (reads w + k)) blk)
    /\ reads (world_of r) = (reads w + length blocks)%nat
    /\ (forall k, (S k < length blocks)%nat -> switch_code w k = code)
    /\ (forall b, bound = Some b -> (length blocks <= b)%nat)
    /\ (value_of r = Some tt ->
        exists n, length blocks = S n
                  /\ (switch_code w n <> code \/ bound = Some (S n)))
    /\ (value_of r = None ->
        length blocks = fuel
        /\ (forall k, (k < fuel)%nat -> switch_code w k = code)
        /\ forall b, bound = Some b -> (fuel < b)%nat).

(** ** Determinism *)

(** Two worlds agree on the output registers. *)
Definition same_outputs (w1 w2 : World) : Prop :=
  P1_OUT w1 = P1_OUT w2 /\ P2_OUT w1 = P2_OUT w2 /\ P9_OUT w1 = P9_OUT w2.

(** Two worlds agree on every switch sample still to come. *)
Definition same_samples (w1 w2 : World) : Prop :=
  forall k, P10_IN w1 (reads w1 + k) = P10_IN w2 (reads w2 + k).

(** Events added to the trace between [w] and a later world [w']. *)
Definition new_events (w w' : World) : list Event :=
  skipn (length (trace w)) (trace w').

(** A computation whose result, final registers and added events depend only
    on the output registers and on the samples to come. *)
Definition deterministic {A : Type} (c : M A) : Prop :=
  forall w1 w2,
    same_outputs w1 w2 -> same_samples w1 w2 ->
    value_of (c w1) = value_of (c w2)
    /\ same_outputs (world_of (c w1)) (world_of (c w2))
    /\ same_samples (world_of (c w1)) (world_of (c w2))
    /\ exists evs,
         trace (world_of (c w1)) = trace w1 ++ evs
         /\ trace (world_of (c w2)) = trace w2 ++ evs.

(** A board that has already taken three samples reading 0x0F and whose
    switches read [raw] from now on. *)
Definition later_board (raw : Z) : World :=
  mkWorld 0 0 0 (fun k => if (k <? 3)%nat then 0x0F else raw) 3
    [EvRead 0x0F; EvRead 0x0F; EvRead 0x0F].

(** * The rest of the driver *)

(** [P2->OUT ^= led_value;] *)
Definition LED2_Toggle (led_value : Z) : M unit :=
  out <- get_OUT P2 ;;
  set_OUT P2 (Z.lxor out led_value).

(** ** Notions used in the further statements *)

(** [w'] has the bits of [P1->OUT] and [P2->OUT] that do not drive an LED
    (bits 1..7 of P1, among them the button pull-ups, and bits 3..7 of P2) as
    they are in [w]. *)
Definition same_other_bits (w w' : World) : Prop :=
  Z.land (P1_OUT w') 0xFE = Z.land (P1_OUT w) 0xFE
  /\ Z.land (P2_OUT w') 0xF8 = Z.land (P2_OUT w) 0xF8.

(** A computation that relates every start world to the world it reaches. *)
Definition steps_within {A : Type} (R : World -> World -> Prop) (c : M A) : Prop :=
  forall w, R w (world_of (c w)).

(** Milliseconds spent in [Clock_Delay1ms] along a list of events. *)
Fixpoint total_delay (evs : list Event) : Z :=
  match evs with
  | [] => 0
  | EvDelay ms :: evs' => ms + total_delay evs'
  | _ :: evs' => total_delay evs'
  end.

(** The trace of [w'] continues the trace of [w]. *)
Definition trace_extends (w w' : World) : Prop :=
  exists evs, trace w' = trace w ++ evs.

(** Events of [k] whole iterations of the loop of pattern 4, started in a
    world whose port registers hold [p1] and [p2]. *)
Definition blink_trace (p1 p2 : Z) (w : World) (k : nat) : list Event :=
  flat_map (fun j =>
              [EvWrite P9 PMOD_8LD_ALL_ON;
               EvWrite P1 (Z.lor (Z.land p1 0xFE) RED_LED_ON);
               EvWrite P2 (Z.lor (Z.land p2 0xF8) RGB_LED_BLUE);
               EvDelay 1000;
               EvWrite P9 PMOD_8LD_ALL_OFF;
               EvWrite P1 (Z.land p1 0xFE);
               EvWrite P2 (Z.land p2 0xF8);
               EvDelay 1000;
               EvRead (P10_IN w (reads w + j))]) (seq 0 k).

(** * Initialization and the poll loop of [main] *)

(** The four ports of the program and the configuration registers the
    [*_Init] functions write (each 8 bits wide, as [OUT] and [IN]). *)
Inductive PortId : Type := Port1 | Port2 | Port9 | Port10.
Inductive CfgReg : Type := SEL0 | SEL1 | DIR | REN | DS.

Definition PortId_eqb (p q : PortId) : bool :=
  match p, q with
  | Port1, Port1 | Port2, Port2 | Port9, Port9 | Port10, Port10 => true
  | _, _ => false
  end.

Definition CfgReg_eqb (r s : CfgReg) : bool :=
  match r, s with
  | SEL0, SEL0 | SEL1, SEL1 | DIR, DIR | REN, REN | DS, DS => true
  | _, _ => false
  end.

(** The whole machine: the world of the display routines, the configuration
    registers, and the volatile button input [P1->IN] as a stream of samples
    with the number of samples taken. *)
Record Machine : Type := mkMachine {
  io : World;
  cfg : PortId -> CfgReg -> Z;
  P1_IN : nat -> Z;
  button_reads : nat
}.

Definition MM (A : Type) : Type := Machine -> option A * Machine.

Definition mret {A : Type} (a : A) : MM A := fun m => (Some a, m).

Definition mbind {A B : Type} (c : MM A) (k : A -> MM B) : MM B :=
  fun m =>
    match c m with
    | (Some a, m') => k a m'
    | (None, m') => (None, m')
    end.

Declare Scope machine_scope.
Delimit Scope machine_scope with machine.
Notation "x <- c ;; k" := (mbind c (fun x => k))
  (at level 61, c at next level, right associativity) : machine_scope.
Notation "c ;; k" := (mbind c (fun _ => k))
  (at level 61, right associativity) : machine_scope.

(** A computation on the world, run inside the machine. *)
Definition lift {A : Type} (c : M A) : MM A :=
  fun m =>
    (value_of (c (io m)),
     mkMachine (world_of (c (io m))) (cfg m) (P1_IN m) (button_reads m)).

Definition machine_of {A : Type} (r : option A * Machine) : Machine := snd r.

Definition get_cfg (p : PortId) (r : CfgReg) : MM Z :=
  fun m => (Some (cfg m p r), m).

Definition set_cfg (p : PortId) (r : CfgReg) (v : Z) : MM unit :=
  fun m =>
    (Some tt,
     mkMachine (io m)
       (fun p' r' =>
          if PortId_eqb p p' && CfgReg_eqb r r' then uint8 v else cfg m p' r')
       (P1_IN m) (button_reads m)).

(** [p->r &= mask;] and [p->r |= mask;] on a configuration register. *)
Definition and_cfg (p : PortId) (r : CfgReg) (mask : Z) : MM unit :=
  (v <- get_cfg p r ;; set_cfg p r (Z.land v mask))%machine.

Definition or_cfg (p : PortId) (r : CfgReg) (mask : Z) : MM unit :=
  (v <- get_cfg p r ;; set_cfg p r (Z.lor v mask))%machine.

(** [p->OUT &= mask;] and [p->OUT |= mask;] *)
Definition and_OUT (p : Port) (mask : Z) : M unit :=
  out <- get_OUT p ;; set_OUT p (Z.land out mask).

Definition or_OUT (p : Port) (mask : Z) : M unit :=
  out <- get_OUT p ;; set_OUT p (Z.lor out mask).

Local Open Scope machine_scope.

(** In the masks, [~c] is the complement of the [int] constant [c]. *)
Definition LED1_Init : MM unit :=
  and_cfg Port1 SEL0 (Z.lnot 0x01) ;;
  and_cfg Port1 SEL1 (Z.lnot 0x01) ;;
  or_cfg Port1 DIR 0x01.

Definition LED2_Init : MM unit :=
  and_cfg Port2 SEL0 (Z.lnot 0x07) ;;
  and_cfg Port2 SEL1 (Z.lnot 0x07) ;;
  or_cfg Port2 DS 0x07 ;;
  or_cfg Port2 DIR 0x07 ;;
  lift (and_OUT P2 (Z.lnot 0x07)).

Definition Buttons_Init : MM unit :=
  and_cfg Port1 SEL0 (Z.lnot 0x12) ;;
  and_cfg Port1 SEL1 (Z.lnot 0x12) ;;
  or_cfg Port1 DIR (Z.lnot 0x12) ;;
  or_cfg Port1 REN 0x12 ;;
  lift (or_OUT P1 0x12).

(** [uint8_t button_status = (P1->IN & 0x12); return button_status;] *)
Definition Get_Buttons_Status : MM Z :=
  fun m =>
    (Some (Z.land (P1_IN m (button_reads m)) 0x12),
     mkMachine (io m) (cfg m) (P1_IN m) (S (button_reads m))).

Definition PMOD_8LD_Init : MM unit :=
  and_cfg Port9 SEL0 (Z.lnot 0xFF) ;;
  and_cfg Port9 SEL1 (Z.lnot 0xFF) ;;
  or_cfg Port9 DS 0xFF ;;
  or_cfg Port9 DIR 0xFF ;;
  lift (and_OUT P9 (Z.lnot 0xFF)).

Definition PMOD_SWT_Init : MM unit :=
  and_cfg Port10 SEL0 (Z.lnot 0xF) ;;
  and_cfg Port10 SEL1 (Z.lnot 0xF) ;;
  and_cfg Port10 DIR (Z.lnot 0xF).

(** Modelled from the spec: [Clock_Init48MHz] is declared in [inc/Clock.h],
    which is not part of the sources; the spec describes it as a one-time
    clock initialization outside the port logic.  It touches none of the
    registers of the machine. *)
Definition Clock_Init48MHz : MM unit := mret tt.

(** The calls of [main] before its loop. *)
Definition main_init : MM unit :=
  Clock_Init48MHz ;;
  LED1_Init ;;
  LED2_Init ;;
  Buttons_Init ;;
  PMOD_8LD_Init ;;
  PMOD_SWT_Init.

(** The body of the [while(1)] loop of [main]; [fuel] bounds the loops of the
    display routine it calls. *)
Definition main_iteration (fuel : nat) : MM unit :=
  button_status <- Get_Buttons_Status ;;
  switch_status <- lift Get_PMOD_SWT_Status ;;
  lift (LED_Controller fuel button_status switch_status) ;;
  lift (Clock_Delay1ms 100).

(** [while(1)] without [break]: [iterations] rounds of the poll loop are
    observed, after which the loop is still running. *)
Fixpoint main_loop (iterations fuel : nat) : MM unit :=
  match iterations with
  | O => fun m => (None, m)
  | S n => main_iteration fuel ;; main_loop n fuel
  end.

Definition main (iterations fuel : nat) : MM unit :=
  main_init ;;
  main_loop iterations fuel.

Local Close Scope machine_scope.

(** A machine with every modelled register at [v], buttons reading [buttons]
    and switches reading [switches]. *)
Definition machine_at (v buttons switches : Z) : Machine :=
  mkMachine (mkWorld v v v (fun _ => switches) 0 []) (fun _ _ => v)
    (fun _ => buttons) 0.

(** Some event of the list writes port [p]. *)
Definition writes_port (p : Port) (evs : list Event) : Prop :=
  exists v, In (EvWrite p v) evs.

(** * Properties *)

(** ** Bit-level facts about 8-bit registers *)

Lemma uint8_range (v : Z) : 0 <= uint8 v < 256.
Proof. unfold uint8. apply Z.mod_pos_bound. lia. Qed.

Lemma uint8_small (v : Z) : 0 <= v < 256 -> uint8 v = v.
Proof. intros H. unfold uint8. apply Z.mod_small. exact H. Qed.

Lemma uint8_testbit (v n : Z) :
  0 <= n -> Z.testbit (uint8 v) n = (n <? 8) && Z.testbit v n.
Proof.
  intros Hn. unfold uint8. change 256 with (2 ^ 8).
  destruct (Z.ltb_spec n 8) as [Hlt | Hge].
  - rewrite Z.mod_pow2_bits_low by lia. reflexivity.
  - rewrite Z.mod_pow2_bits_high by lia. reflexivity.
Qed.

(** Bits 8 and above of a byte constant are clear. *)
Lemma byte_testbit_high (c n : Z) :
  0 <= c < 256 -> 8 <= n -> Z.testbit c n = false.
Proof.
  intros Hc Hn.
  destruct (Z.eq_dec c 0) as [-> | Hnz].
  - apply Z.testbit_0_l.
  - apply Z.bits_above_log2; [lia |].
    assert (Z.log2 c < 8) by (apply Z.log2_lt_pow2; simpl; lia).
    lia.
Qed.

(** Case split of a bit index into 0..7 and the rest. *)
Ltac bit_cases n :=
  let H := fresh "Hcase" in
  assert (H : n = 0 \/ n = 1 \/ n = 2 \/ n = 3 \/ n = 4 \/ n = 5 \/ n = 6
              \/ n = 7 \/ 8 <= n) by lia;
  repeat (destruct H as [H | H]); try subst n.

Ltac bits8 :=
  apply Z.bits_inj'; intros n Hn;
  repeat rewrite ?Z.land_spec, ?Z.lor_spec, ?uint8_testbit by assumption;
  bit_cases n;
  [ repeat match goal with
           | |- context [Z.testbit ?x ?k] => is_var x; destruct (Z.testbit x k)
           end; vm_compute; reflexivity ..
  | replace (n <? 8) with false by (symmetry; apply Z.ltb_ge; lia);
    repeat match goal with
           | |- context [Z.testbit ?c n] =>
               tryif is_var c then fail
               else rewrite (byte_testbit_high c n) by lia
           end;
    cbn; rewrite ?andb_false_r; reflexivity ].

(** The word stored by [LED1_Output]/[LED2_Output] keeps the bits outside the
    mask whenever the argument lies inside it. *)
Lemma led1_word_frame (out v : Z) :
  0 <= v <= 1 ->
  Z.land (uint8 (Z.lor (Z.land out 0xFE) v)) 0xFE = Z.land out 0xFE.
Proof.
  intros Hv. assert (Hc : v = 0 \/ v = 1) by lia.
  destruct Hc as [-> | ->]; bits8.
Qed.

Lemma led1_word_bit0 (out v : Z) :
  0 <= v <= 1 ->
  Z.land (uint8 (Z.lor (Z.land out 0xFE) v)) 0x01 = v.
Proof.
  intros Hv. assert (Hc : v = 0 \/ v = 1) by lia.
  destruct Hc as [-> | ->]; bits8.
Qed.

Lemma led2_word_frame (out v : Z) :
  0 <= v <= 7 ->
  Z.land (uint8 (Z.lor (Z.land out 0xF8) v)) 0xF8 = Z.land out 0xF8.
Proof.
  intros Hv.
  assert (Hc : v = 0 \/ v = 1 \/ v = 2 \/ v = 3 \/ v = 4 \/ v = 5 \/ v = 6 \/ v = 7)
    by lia.
  repeat (destruct Hc as [Hc | Hc]); subst v; bits8.
Qed.

Lemma led2_word_low (out v : Z) :
  0 <= v <= 7 ->
  Z.land (uint8 (Z.lor (Z.land out 0xF8) v)) 0x07 = v.
Proof.
  intros Hv.
  assert (Hc : v = 0 \/ v = 1 \/ v = 2 \/ v = 3 \/ v = 4 \/ v = 5 \/ v = 6 \/ v = 7)
    by lia.
  repeat (destruct Hc as [Hc | Hc]); subst v; bits8.
Qed.

(** ** Pattern selector *)

(** C1: every switch code outside {0x00, 0x01, 0x02, 0x04, 0x08} makes
    [LED_Controller] run [LED_Pattern_1] on the sampled button code, and each
    of the five codes runs exactly its own routine. *)
Theorem LED_Controller_dispatch (fuel : nat) (button_status switch_status : Z) :
  ~ In switch_status [0x00; 0x01; 0x02; 0x04; 0x08] ->
  LED_Controller fuel button_status switch_status = LED_Pattern_1 button_status
  /\ LED_Controller fuel button_status 0x00 = LED_Pattern_1 button_status
  /\ LED_Controller fuel button_status 0x01 = LED_Pattern_2 fuel
  /\ LED_Controller fuel button_status 0x02 = LED_Pattern_3 fuel
  /\ LED_Controller fuel button_status 0x04 = LED_Pattern_4 fuel
  /\ LED_Controller fuel button_status 0x08 = LED_Pattern_5 fuel.
Proof.
  intros Hout. split; [| repeat split; reflexivity].
  unfold LED_Controller.
  repeat match goal with
         | |- context [?a =? ?b] =>
             destruct (Z.eqb_spec a b) as [-> | ?];
             [exfalso; apply Hout; simpl; tauto |]
         end.
  reflexivity.
Qed.

Lemma LED_Controller_dispatch_witness :
  LED_Controller 0 0x12 0x03 = LED_Pattern_1 0x12
  /\ LED_Controller 0 0x12 0x00 = LED_Pattern_1 0x12
  /\ LED_Controller 0 0x12 0x01 = LED_Pattern_2 0
  /\ LED_Controller 0 0x12 0x02 = LED_Pattern_3 0
  /\ LED_Controller 0 0x12 0x04 = LED_Pattern_4 0
  /\ LED_Controller 0 0x12 0x08 = LED_Pattern_5 0.
Proof.
  apply (LED_Controller_dispatch 0 0x12 0x03).
  simpl. intros H. repeat (destruct H as [H | H]; [discriminate H |]). exact H.
Defined.

(** ** Pattern 1 *)

Ltac run_pattern_1 :=
  intros r;
  unfold LED_Controller, LED_Pattern_1 in r; cbn in r;
  unfold PMOD_8LD_Output, LED1_Output, LED2_Output, Clock_Delay1ms,
    set_OUT, get_OUT, bind, ret, emit in r;
  cbn in r; subst r; unfold LED2_Status, LED1_Status, get_OUT, bind, ret;
  cbn [world_of value_of fst snd P1_OUT P2_OUT P9_OUT P10_IN reads trace];
  repeat rewrite <- app_assoc; cbn [app].

(** C3: with switch code 0x00 and button code 0x00 the selector produces one
    blink and returns: bank off, onboard LED on and tri-color LED green, a
    1000 ms hold, both LEDs off, a second 1000 ms hold; no switch sample is
    taken. *)
Theorem Pattern1_both_pressed_blinks_once (fuel : nat) (w : World) :
  let r := LED_Controller fuel 0x00 0x00 w in
  exists on1 on2 off1 off2,
    value_of r = Some tt
    /\ trace (world_of r) =
         trace w ++ [EvWrite P9 PMOD_8LD_ALL_OFF;
                     EvWrite P1 on1; EvWrite P2 on2; EvDelay 1000;
                     EvWrite P1 off1; EvWrite P2 off2; EvDelay 1000]
    /\ Z.land on1 0x01 = RED_LED_ON /\ Z.land on2 0x07 = RGB_LED_GREEN
    /\ Z.land off1 0x01 = RED_LED_OFF /\ Z.land off2 0x07 = RGB_LED_OFF
    /\ reads (world_of r) = reads w.
Proof.
  run_pattern_1.
  do 4 eexists. split; [reflexivity |]. split; [reflexivity |].
  repeat split.
  - apply led1_word_bit0. unfold RED_LED_ON. lia.
  - apply led2_word_low. unfold RGB_LED_GREEN. lia.
  - apply led1_word_bit0. unfold RED_LED_OFF. lia.
  - apply led2_word_low. unfold RGB_LED_OFF. lia.
Qed.

(** C4: with switch code 0x00 and button code 0x02 the selector leaves the
    8-LED bank at 0xAA and the tri-color LED (bits 0..2 of its port, as read
    by [LED2_Status]) at the pink code, which is red and blue combined, 0x05
    under value = R | G*2 | B*4. *)
Theorem Pattern1_button2_bank_AA_pink (fuel : nat) (w : World) :
  let r := LED_Controller fuel 0x02 0x00 w in
  value_of r = Some tt
  /\ P9_OUT (world_of r) = 0xAA
  /\ value_of (LED2_Status (world_of r)) = Some RGB_LED_PINK
  /\ Z.land (P2_OUT (world_of r)) 0xF8 = Z.land (P2_OUT w) 0xF8
  /\ RGB_LED_PINK = Z.lor RGB_LED_RED RGB_LED_BLUE
  /\ RGB_LED_PINK = Z.lor 1 (Z.lor (0 * 2) (1 * 4))
  /\ RGB_LED_PINK = 0x05.
Proof.
  run_pattern_1.
  repeat split.
  - f_equal. apply led2_word_low. unfold RGB_LED_PINK. lia.
  - apply led2_word_frame. unfold RGB_LED_PINK. lia.
Qed.

(** C7: a button code other than 0x00, 0x10, 0x02 and 0x12 makes
    [LED_Pattern_1] return at once: no write, no delay, every register and
    the trace as before. *)
Theorem Pattern1_other_button_noop (button_status : Z) (w : World) :
  ~ In button_status [0x00; 0x10; 0x02; 0x12] ->
  LED_Pattern_1 button_status w = (Some tt, w).
Proof.
  intros Hout. unfold LED_Pattern_1.
  repeat match goal with
         | |- context [?a =? ?b] =>
             destruct (Z.eqb_spec a b) as [-> | ?];
             [exfalso; apply Hout; simpl; tauto |]
         end.
  reflexivity.
Qed.

Lemma Pattern1_other_button_noop_witness :
  LED_Pattern_1 0x01 (board 0x00) = (Some tt, board 0x00).
Proof.
  apply (Pattern1_other_button_noop 0x01 (board 0x00)).
  simpl. intros H. repeat (destruct H as [H | H]; [discriminate H |]). exact H.
Defined.

(** ** Frame of the LED output functions *)

(** C9 as stated fails: an argument with bits outside the LED mask is OR-ed
    into the rest of the port register. *)
Lemma LED_Output_full_byte_breaks_frame :
  Z.land (P1_OUT (world_of (LED1_Output 0xFF (board 0x00)))) 0xFE
    <> Z.land (P1_OUT (board 0x00)) 0xFE
  /\ Z.land (P2_OUT (world_of (LED2_Output 0xFF (board 0x00)))) 0xF8
    <> Z.land (P2_OUT (board 0x00)) 0xF8.
Proof. split; vm_compute; discriminate. Qed.

(** C9 (amended): for an argument that is an onboard-LED value (0 or 1),
    [LED1_Output] changes at most bit 0 of [P1->OUT]; for an argument that is
    a tri-color code (0..7), [LED2_Output] changes at most bits 0..2 of
    [P2->OUT]; the other port registers are untouched. *)
Theorem LED_Output_frame (v1 v2 : Z) (w : World) :
  0 <= v1 <= 1 -> 0 <= v2 <= 7 ->
  let w1 := world_of (LED1_Output v1 w) in
  let w2 := world_of (LED2_Output v2 w) in
  (Z.land (P1_OUT w1) 0xFE = Z.land (P1_OUT w) 0xFE
   /\ P2_OUT w1 = P2_OUT w /\ P9_OUT w1 = P9_OUT w)
  /\ (Z.land (P2_OUT w2) 0xF8 = Z.land (P2_OUT w) 0xF8
      /\ P1_OUT w2 = P1_OUT w /\ P9_OUT w2 = P9_OUT w).
Proof.
  intros H1 H2. cbn.
  repeat split.
  - apply led1_word_frame. exact H1.
  - apply led2_word_frame. exact H2.
Qed.

Lemma LED_Output_frame_witness :
  let w := mkWorld 0xB6 0xC9 0x3C (fun _ => 0) 0 [] in
  let w1 := world_of (LED1_Output RED_LED_ON w) in
  let w2 := world_of (LED2_Output RGB_LED_PINK w) in
  (Z.land (P1_OUT w1) 0xFE = Z.land (P1_OUT w) 0xFE
   /\ P2_OUT w1 = P2_OUT w /\ P9_OUT w1 = P9_OUT w)
  /\ (Z.land (P2_OUT w2) 0xF8 = Z.land (P2_OUT w) 0xF8
      /\ P1_OUT w2 = P1_OUT w /\ P9_OUT w2 = P9_OUT w).
Proof.
  apply (LED_Output_frame RED_LED_ON RGB_LED_PINK
           (mkWorld 0xB6 0xC9 0x3C (fun _ => 0) 0 []));
    unfold RED_LED_ON, RGB_LED_PINK; lia.
Defined.

(** ** Counting loops (patterns 2, 3 and 5) *)

Lemma for_loop_exit (fuel : nat) cond next body (i : Z) (w : World) :
  cond i = false -> for_loop fuel cond next body i w = (Some ExitCond, w).
Proof. intros H. destruct fuel; simpl; rewrite H; reflexivity. Qed.

Lemma for_loop_step (fuel : nat) cond next (body : Z -> M Flow) (i : Z)
    (w w1 : World) (flow : Flow) :
  cond i = true -> body i w = (Some flow, w1) ->
  for_loop (S fuel) cond next body i w =
    match flow with
    | Break => (Some ExitBreak, w1)
    | Continue => for_loop fuel cond next body (next i) w1
    end.
Proof.
  intros Hc Hb. simpl. rewrite Hc. unfold bind. rewrite Hb.
  destruct flow; reflexivity.
Qed.

Lemma flat_map_seq_shift {A : Type} (f : nat -> list A) (n s : nat) :
  flat_map f (seq (S s) n) = flat_map (fun k => f (S k)) (seq s n).
Proof.
  revert s. induction n as [| n IH]; intros s; simpl.
  - reflexivity.
  - rewrite IH. reflexivity.
Qed.

Lemma flat_map_seq_ext {A : Type} (f g : nat -> list A) (n s : nat) :
  (forall k, (s <= k < s + n)%nat -> f k = g k) ->
  flat_map f (seq s n) = flat_map g (seq s n).
Proof.
  revert s. induction n as [| n IH]; intros s H; simpl.
  - reflexivity.
  - rewrite H by lia. rewrite IH; [reflexivity |].
    intros k Hk. apply H. lia.
Qed.

Lemma after_step_fields (ms v : Z) (w : World) :
  after_step ms v w =
    mkWorld (P1_OUT w) (P2_OUT w) (uint8 v) (P10_IN w) (S (reads w))
      (trace w ++ [EvWrite P9 (uint8 v); EvDelay ms; EvRead (P10_IN w (reads w))]).
Proof.
  unfold after_step, counting_iteration, PMOD_8LD_Output, Clock_Delay1ms,
    Get_PMOD_SWT_Status, get_P10_IN, set_OUT, get_OUT, bind, ret, emit, world_of.
  cbn. repeat rewrite <- app_assoc. reflexivity.
Qed.

Lemma switch_code_after_step (ms v : Z) (w : World) (k : nat) :
  switch_code (after_step ms v w) k = switch_code w (S k).
Proof.
  rewrite after_step_fields. unfold switch_code. cbn.
  rewrite Nat.add_succ_r. reflexivity.
Qed.

Lemma after_steps_snoc (ms : Z) next (n : nat) :
  forall i w,
    after_steps ms next (S n) i w =
    after_step ms (Nat.iter n next i) (after_steps ms next n i w).
Proof.
  induction n as [| n IH]; intros i w.
  - reflexivity.
  - change (after_steps ms next (S (S n)) i w)
      with (after_steps ms next (S n) (next i) (after_step ms i w)).
    rewrite IH. simpl after_steps at 1.
    rewrite <- Nat.iter_succ_r. reflexivity.
Qed.

Lemma after_steps_fields (ms : Z) next (n : nat) :
  forall i w,
    let w' := after_steps ms next n i w in
    P1_OUT w' = P1_OUT w /\ P2_OUT w' = P2_OUT w /\ P10_IN w' = P10_IN w
    /\ reads w' = (reads w + n)%nat
    /\ trace w' =
         trace w ++ counting_trace ms (fun k => uint8 (Nat.iter k next i)) w n.
Proof.
  induction n as [| n IH]; intros i w; cbn zeta.
  - cbn. rewrite app_nil_r, Nat.add_0_r. repeat split.
  - cbn [after_steps].
    destruct (IH (next i) (after_step ms i w)) as (H1 & H2 & H3 & H4 & H5).
    rewrite H1, H2, H3, H4, H5. rewrite after_step_fields. cbn.
    repeat split; [lia |].
    rewrite <- app_assoc. f_equal.
    unfold counting_trace. cbn [seq flat_map].
    rewrite Nat.add_0_r. cbn [app]. do 3 f_equal.
    rewrite flat_map_seq_shift.
    apply flat_map_seq_ext. intros k _.
    cbn [P10_IN reads]. rewrite Nat.iter_succ_r.
    replace (S (reads w) + k)%nat with (reads w + S k)%nat by lia.
    reflexivity.
Qed.

Section CountingLoop.

Variables (ms code : Z) (cond : Z -> bool) (next : Z -> Z).
Variable body : Z -> M Flow.

(** The body writes the bank, waits, samples the switches once and breaks
    exactly when the sample differs from [code]. *)
Hypothesis body_run :
  forall v w,
    body v w =
      (Some (if negb (switch_code w 0 =? code) then Break else Continue),
       after_step ms v w).

(** Complete description of a run of the loop: it performs [n] whole
    iterations, it went on only past samples equal to [code], and the way
    it stopped is determined by the last sample and the loop condition. *)
Lemma counting_loop_run (fuel : nat) :
  forall i w,
  exists n,
    let r := for_loop fuel cond next body i w in
    world_of r = after_steps ms next n i w
    /\ (n <= fuel)%nat
    /\ (forall k, (S k < n)%nat -> switch_code w k = code)
    /\ (forall k, (k < n)%nat -> cond (Nat.iter k next i) = true)
    /\ match value_of r with
       | Some ExitBreak =>
           exists m, n = S m /\ switch_code w m <> code
       | Some ExitCond =>
           cond (Nat.iter n next i) = false
           /\ forall k, (k < n)%nat -> switch_code w k = code
       | None =>
           n = fuel /\ cond (Nat.iter n next i) = true
           /\ forall k, (k < n)%nat -> switch_code w k = code
       end.
Proof.
  induction fuel as [| fuel IH]; intros i w.
  - exists O. cbn zeta. destruct (cond i) eqn:Hc; simpl; rewrite Hc; simpl.
    + repeat split; intros; lia.
    + repeat split; intros; lia.
  - destruct (cond i) eqn:Hc.
    + destruct (Z.eqb_spec (switch_code w 0) code) as [Heq | Hne].
      * destruct (IH (next i) (after_step ms i w)) as (n & Hw & Hle & Hs & Hcn & Hv).
        exists (S n). cbn zeta in *.
        rewrite (for_loop_step fuel cond next body i w (after_step ms i w) Continue Hc).
        2:{ rewrite body_run. destruct (Z.eqb_spec (switch_code w 0) code);
            [reflexivity | contradiction]. }
        split; [exact Hw |]. split; [lia |].
        split.
        { intros [| k] Hk; [exact Heq |].
          rewrite <- switch_code_after_step with (ms := ms) (v := i).
          apply Hs. lia. }
        split.
        { intros [| k] Hk; [exact Hc |].
          rewrite Nat.iter_succ_r. apply Hcn. lia. }
        destruct (value_of (for_loop fuel cond next body (next i) (after_step ms i w)))
          as [[|] |].
        -- destruct Hv as [Hf Ha]. split; [rewrite Nat.iter_succ_r; exact Hf |].
           intros [| k] Hk; [exact Heq |].
           rewrite <- switch_code_after_step with (ms := ms) (v := i).
           apply Ha. lia.
        -- destruct Hv as (m & -> & Hm). exists (S m). split; [reflexivity |].
           rewrite <- switch_code_after_step with (ms := ms) (v := i). exact Hm.
        -- destruct Hv as (-> & Hf & Ha). split; [reflexivity |].
           split; [rewrite Nat.iter_succ_r; exact Hf |].
           intros [| k] Hk; [exact Heq |].
           rewrite <- switch_code_after_step with (ms := ms) (v := i).
           apply Ha. lia.
      * exists 1%nat. cbn zeta.
        rewrite (for_loop_step fuel cond next body i w (after_step ms i w) Break Hc).
        2:{ rewrite body_run. destruct (Z.eqb_spec (switch_code w 0) code);
            [contradiction | reflexivity]. }
        simpl. split; [reflexivity |]. split; [lia |].
        split; [intros; lia |].
        split; [intros k Hk; replace k with O by lia; exact Hc |].
        exists O. split; [reflexivity | exact Hne].
    + exists O. cbn zeta. rewrite for_loop_exit by exact Hc. simpl.
      repeat split; intros; lia || exact Hc.
Qed.

(** The same for a loop that starts at [i0] and whose condition holds for
    exactly the first [trips] counter values. *)
Variables (i0 : Z) (trips : nat).
Hypothesis cond_trips :
  forall k, cond (Nat.iter k next i0) = true <-> (k < trips)%nat.

Lemma counted_loop_run (fuel : nat) (w : World) :
  exists n,
    let r := for_loop fuel cond next body i0 w in
    world_of r = after_steps ms next n i0 w
    /\ (n <= fuel)%nat /\ (n <= trips)%nat
    /\ (forall k, (S k < n)%nat -> switch_code w k = code)
    /\ match value_of r with
       | Some ExitBreak => exists m, n = S m /\ switch_code w m <> code
       | Some ExitCond =>
           n = trips /\ forall k, (k < n)%nat -> switch_code w k = code
       | None =>
           n = fuel /\ (n < trips)%nat
           /\ forall k, (k < n)%nat -> switch_code w k = code
       end.
Proof.
  destruct (counting_loop_run fuel i0 w) as (n & Hw & Hle & Hs & Hc & Hv).
  cbn zeta in *.
  assert (Hn : (n <= trips)%nat).
  { destruct n as [| n]; [lia |].
    assert (n < trips)%nat by (apply cond_trips, Hc; lia). lia. }
  exists n. repeat (split; [assumption |]).
  destruct (value_of (for_loop fuel cond next body i0 w)) as [[|] |].
  - destruct Hv as [Hf Ha]. split; [| exact Ha].
    destruct (Nat.eq_dec n trips) as [| Hne]; [assumption |].
    assert (Ht : cond (Nat.iter n next i0) = true) by (apply cond_trips; lia).
    congruence.
  - exact Hv.
  - destruct Hv as (Hf & Ht & Ha). repeat split; try assumption.
    apply cond_trips. exact Ht.
Qed.

End CountingLoop.

(** The three counting bodies meet the hypothesis of [CountingLoop]. *)
Ltac run_body :=
  intros; rewrite after_step_fields;
  unfold counting_iteration, PMOD_8LD_Output, Clock_Delay1ms,
    Get_PMOD_SWT_Status, get_P10_IN, set_OUT, get_OUT, bind, ret, emit,
    switch_code;
  cbn; rewrite Nat.add_0_r; repeat rewrite <- app_assoc; cbn;
  match goal with
  | |- context [negb (?a =? ?b)] => destruct (a =? b); reflexivity
  end.

Lemma LED_Pattern_2_body_run (v : Z) (w : World) :
  LED_Pattern_2_body v w =
    (Some (if negb (switch_code w 0 =? 0x01) then Break else Continue),
     after_step 100 v w).
Proof. unfold LED_Pattern_2_body. run_body. Qed.

Lemma LED_Pattern_3_body_run (v : Z) (w : World) :
  LED_Pattern_3_body v w =
    (Some (if negb (switch_code w 0 =? 0x02) then Break else Continue),
     after_step 100 v w).
Proof. unfold LED_Pattern_3_body. run_body. Qed.

Lemma LED_Pattern_5_body_run (v : Z) (w : World) :
  LED_Pattern_5_body v w =
    (Some (if negb (switch_code w 0 =? 0x08) then Break else Continue),
     after_step 500 v w).
Proof. unfold LED_Pattern_5_body. run_body. Qed.

(** Counter values of the three loops. *)
Lemma iter_up (k : nat) : Nat.iter k (fun led_count => led_count + 1) 0 = Z.of_nat k.
Proof. induction k as [| k IH]; [reflexivity |]. rewrite Nat.iter_succ, IH. lia. Qed.

Lemma iter_down (k : nat) :
  Nat.iter k (fun led_count => led_count - 1) 0xFF = 255 - Z.of_nat k.
Proof. induction k as [| k IH]; [reflexivity |]. rewrite Nat.iter_succ, IH. lia. Qed.

Lemma iter_double (k : nat) :
  Nat.iter k (fun led_count => led_count * 2) 0x01 = 2 ^ Z.of_nat k.
Proof.
  induction k as [| k IH]; [reflexivity |].
  rewrite Nat.iter_succ, IH, Nat2Z.inj_succ, Z.pow_succ_r by lia. lia.
Qed.

Lemma pow2_le_128 (k : nat) : 2 ^ Z.of_nat k <= 128 <-> (k <= 7)%nat.
Proof.
  change 128 with (2 ^ 7). rewrite <- Z.pow_le_mono_r_iff by lia. lia.
Qed.

(** Entering a counting routine: two LED writes, nothing else. *)
Lemma entry_fields (v1 v2 : Z) (w : World) :
  let w1 := world_of ((LED1_Output v1 ;; LED2_Output v2) w) in
  P1_OUT w1 = uint8 (Z.lor (Z.land (P1_OUT w) 0xFE) v1)
  /\ P2_OUT w1 = uint8 (Z.lor (Z.land (P2_OUT w) 0xF8) v2)
  /\ P9_OUT w1 = P9_OUT w /\ P10_IN w1 = P10_IN w /\ reads w1 = reads w
  /\ trace w1 = trace w ++ [EvWrite P1 (P1_OUT w1); EvWrite P2 (P2_OUT w1)].
Proof.
  unfold LED1_Output, LED2_Output, set_OUT, get_OUT, bind, emit, world_of.
  cbn. rewrite <- app_assoc. repeat split.
Qed.

Lemma switch_code_entry (v1 v2 : Z) (w : World) (k : nat) :
  switch_code (world_of ((LED1_Output v1 ;; LED2_Output v2) w)) k = switch_code w k.
Proof. reflexivity. Qed.

Lemma LED_Pattern_2_unfold (fuel : nat) (w : World) :
  LED_Pattern_2 fuel w =
    (match value_of (LED_Pattern_2_loop fuel (LED_Pattern_2_entry w)) with
     | Some _ => Some tt
     | None => None
     end,
     world_of (LED_Pattern_2_loop fuel (LED_Pattern_2_entry w))).
Proof.
  unfold LED_Pattern_2, LED_Pattern_2_entry, bind at 1 2 3, world_of, value_of.
  cbn. destruct (LED_Pattern_2_loop fuel _) as [[e |] w']; reflexivity.
Qed.

Lemma LED_Pattern_3_unfold (fuel : nat) (w : World) :
  LED_Pattern_3 fuel w =
    (match value_of (LED_Pattern_3_loop fuel (LED_Pattern_3_entry w)) with
     | Some _ => Some tt
     | None => None
     end,
     world_of (LED_Pattern_3_loop fuel (LED_Pattern_3_entry w))).
Proof.
  unfold LED_Pattern_3, LED_Pattern_3_entry, bind at 1 2 3, world_of, value_of.
  cbn. destruct (LED_Pattern_3_loop fuel _) as [[e |] w']; reflexivity.
Qed.

Lemma LED_Pattern_5_unfold (fuel : nat) (w : World) :
  LED_Pattern_5 fuel w =
    (match value_of (LED_Pattern_5_loop fuel (LED_Pattern_5_entry w)) with
     | Some _ => Some tt
     | None => None
     end,
     world_of (LED_Pattern_5_loop fuel (LED_Pattern_5_entry w))).
Proof.
  unfold LED_Pattern_5, LED_Pattern_5_entry, bind at 1 2 3, world_of, value_of.
  cbn. destruct (LED_Pattern_5_loop fuel _) as [[e |] w']; reflexivity.
Qed.

Lemma LED_Pattern_2_trips (k : nat) :
  (Nat.iter k (fun led_count => led_count + 1) 0 <=? 0xFF) = true <-> (k < 256)%nat.
Proof. rewrite iter_up, Z.leb_le. lia. Qed.

Lemma LED_Pattern_3_trips (k : nat) :
  (Nat.iter k (fun led_count => led_count - 1) 0xFF >=? 0) = true <-> (k < 256)%nat.
Proof. rewrite iter_down, Z.geb_le. lia. Qed.

Lemma LED_Pattern_5_trips (k : nat) :
  (Nat.iter k (fun led_count => led_count * 2) 0x01 <=? 128) = true <-> (k < 8)%nat.
Proof. rewrite iter_double, Z.leb_le, pow2_le_128. lia. Qed.

(** ** Pattern 2 *)

(** C2: while every resample reads switch code 0x01, [LED_Pattern_2] writes
    0, 1, ..., 255 to the bank, each write followed by a 100 ms delay and one
    switch sample, and returns after the 256th write because the loop
    condition failed, not through [break]. *)
Theorem Pattern2_counts_up_to_255 (fuel : nat) (w : World) :
  (256 <= fuel)%nat ->
  (forall k, (k < 256)%nat -> switch_code w k = 0x01) ->
  let r := LED_Pattern_2 fuel w in
  value_of r = Some tt
  /\ (exists led1 led2,
        trace (world_of r) =
          trace w ++ [EvWrite P1 led1; EvWrite P2 led2]
          ++ flat_map (fun k => [EvWrite P9 (Z.of_nat k); EvDelay 100;
                                 EvRead (P10_IN w (reads w + k))]) (seq 0 256))
  /\ reads (world_of r) = (reads w + 256)%nat
  /\ value_of (LED_Pattern_2_loop fuel (LED_Pattern_2_entry w)) = Some ExitCond.
Proof.
  intros Hfuel Hheld. cbn zeta.
  rewrite LED_Pattern_2_unfold.
  destruct (counted_loop_run 100 0x01 (fun led_count => led_count <=? 0xFF)
              (fun led_count => led_count + 1) _ LED_Pattern_2_body_run 0 256
              LED_Pattern_2_trips fuel (LED_Pattern_2_entry w))
    as (n & Hw & Hle & Hn & Hs & Hv).
  cbn zeta in *. fold (LED_Pattern_2_loop fuel) in *.
  unfold world_of, value_of in *. cbn [fst snd] in *.
  destruct (fst (LED_Pattern_2_loop fuel (LED_Pattern_2_entry w))) as [[|] |].
  - destruct Hv as [-> _]. rewrite Hw.
    destruct (after_steps_fields 100 (fun c => c + 1) 256 0 (LED_Pattern_2_entry w))
      as (_ & _ & _ & Hr & Ht).
    destruct (entry_fields RED_LED_ON RGB_LED_RED w) as (_ & _ & _ & Hin & Hrd & Htr).
    fold (LED_Pattern_2_entry w) in Hin, Hrd, Htr.
    split; [reflexivity |]. split; [| split; [rewrite Hr, Hrd; reflexivity | reflexivity]].
    do 2 eexists. rewrite Ht, Htr, <- app_assoc.
    apply (f_equal (app (trace w))). apply (f_equal (app _)).
    unfold counting_trace. rewrite Hin, Hrd.
    apply flat_map_seq_ext. intros k Hk.
    rewrite iter_up, uint8_small by lia. reflexivity.
  - exfalso. destruct Hv as (m & -> & Hm). apply Hm.
    rewrite <- (switch_code_entry RED_LED_ON RGB_LED_RED). apply Hheld. lia.
  - exfalso. lia.
Qed.

Lemma Pattern2_counts_up_to_255_witness :
  value_of (LED_Pattern_2 256 (board 0x01)) = Some tt
  /\ value_of (LED_Pattern_2_loop 256 (LED_Pattern_2_entry (board 0x01))) = Some ExitCond.
Proof.
  assert (H : forall k, (k < 256)%nat -> switch_code (board 0x01) k = 0x01)
    by (intros k _; reflexivity).
  split; apply (Pattern2_counts_up_to_255 256 (board 0x01) (Nat.le_refl 256) H).
Defined.

(** ** Pattern 5 *)

(** C5: [LED_Pattern_5] performs steps 0..k, where k is the first step whose
    resample differs from 0x08, or 7 if there is none: step j writes the j-th
    of 1, 2, 4, 8, 16, 32, 64, 128 to the bank, waits 500 ms and samples the
    switches once; then the routine returns.  With the switches held at 0x08
    (k = 7) all eight values are written. *)
Theorem Pattern5_shifts_until_switch_changes (fuel : nat) (w : World) (k : nat) :
  (8 <= fuel)%nat -> (k <= 7)%nat ->
  (forall j, (j < k)%nat -> switch_code w j = 0x08) ->
  (k = 7%nat \/ switch_code w k <> 0x08) ->
  let r := LED_Pattern_5 fuel w in
  value_of r = Some tt
  /\ (exists led1 led2,
        trace (world_of r) =
          trace w ++ [EvWrite P1 led1; EvWrite P2 led2]
          ++ flat_map (fun j => [EvWrite P9 (nth j [1; 2; 4; 8; 16; 32; 64; 128] 0);
                                 EvDelay 500;
                                 EvRead (P10_IN w (reads w + j))]) (seq 0 (S k)))
  /\ reads (world_of r) = (reads w + S k)%nat.
Proof.
  intros Hfuel Hk Hheld Hlast. cbn zeta.
  rewrite LED_Pattern_5_unfold.
  destruct (counted_loop_run 500 0x08 (fun led_count => led_count <=? 128)
              (fun led_count => led_count * 2) _ LED_Pattern_5_body_run 0x01 8
              LED_Pattern_5_trips fuel (LED_Pattern_5_entry w))
    as (n & Hw & Hle & Hn & Hs & Hv).
  cbn zeta in *. fold (LED_Pattern_5_loop fuel) in *.
  unfold world_of, value_of in *. cbn [fst snd] in *.
  assert (Hcode : forall j, switch_code (LED_Pattern_5_entry w) j = switch_code w j)
    by reflexivity.
  assert (Hsteps : n = S k /\ fst (LED_Pattern_5_loop fuel (LED_Pattern_5_entry w)) <> None).
  { destruct (fst (LED_Pattern_5_loop fuel (LED_Pattern_5_entry w))) as [[|] |].
    - destruct Hv as [-> Ha]. split; [| discriminate].
      destruct Hlast as [-> | Hne]; [reflexivity |].
      exfalso. apply Hne. rewrite <- Hcode. apply Ha. lia.
    - destruct Hv as (m & -> & Hm). split; [| discriminate]. f_equal.
      destruct (Nat.lt_trichotomy m k) as [Hlt | [Heq | Hgt]].
      + exfalso. apply Hm. rewrite Hcode. apply Hheld. exact Hlt.
      + exact Heq.
      + exfalso. destruct Hlast as [-> | Hne]; [lia |].
        apply Hne. rewrite <- Hcode. apply Hs. lia.
    - exfalso. lia. }
  destruct Hsteps as [-> Hret].
  rewrite Hw.
  destruct (after_steps_fields 500 (fun c => c * 2) (S k) 0x01 (LED_Pattern_5_entry w))
    as (_ & _ & _ & Hr & Ht).
  destruct (entry_fields RED_LED_OFF RGB_LED_OFF w) as (_ & _ & _ & Hin & Hrd & Htr).
  fold (LED_Pattern_5_entry w) in Hin, Hrd, Htr.
  split.
  { destruct (fst (LED_Pattern_5_loop fuel (LED_Pattern_5_entry w)));
      [reflexivity | contradiction]. }
  split; [| rewrite Hr, Hrd; reflexivity].
  do 2 eexists. rewrite Ht, Htr, <- app_assoc.
  apply (f_equal (app (trace w))). apply (f_equal (app _)).
  unfold counting_trace. rewrite Hin, Hrd.
  apply flat_map_seq_ext. intros j Hj.
  assert (Hval : uint8 (Nat.iter j (fun c => c * 2) 0x01)
                 = nth j [1; 2; 4; 8; 16; 32; 64; 128] 0).
  { do 8 (destruct j as [| j]; [reflexivity |]). lia. }
  rewrite Hval. reflexivity.
Qed.

Lemma Pattern5_shifts_until_switch_changes_witness :
  reads (world_of (LED_Pattern_5 8 (board 0x08))) = 8%nat
  /\ reads (world_of (LED_Pattern_5 8 (switch_flip 2 0x08 0x00))) = 3%nat.
Proof.
  split.
  - apply (Pattern5_shifts_until_switch_changes 8 (board 0x08) 7).
    + lia.
    + lia.
    + intros j _. reflexivity.
    + left. reflexivity.
  - apply (Pattern5_shifts_until_switch_changes 8 (switch_flip 2 0x08 0x00) 2).
    + lia.
    + lia.
    + intros j Hj. do 2 (destruct j as [| j]; [reflexivity |]). lia.
    + right. vm_compute. discriminate.
Defined.

Lemma counting_events_writes (ms : Z) (f g : nat -> Z) (l : list nat) (p : Port) (v : Z) :
  In (EvWrite p v) (flat_map (fun k => [EvWrite P9 (f k); EvDelay ms; EvRead (g k)]) l) ->
  p = P9.
Proof.
  rewrite in_flat_map. intros (k & _ & Hin). simpl in Hin.
  destruct Hin as [H | [H | [H | []]]]; try discriminate H.
  injection H as <- _. reflexivity.
Qed.

(** C10: [LED_Pattern_2] first turns the onboard LED on and sets the
    tri-color LED to red (0x01), whatever the switches read; only then comes
    the first write to the bank; no later write touches the two LEDs, so they
    are still on and red when the routine returns. *)
Theorem Pattern2_sets_leds_before_counting (fuel : nat) (w : World) :
  (256 <= fuel)%nat ->
  let r := LED_Pattern_2 fuel w in
  exists led1 led2 bank rest,
    value_of r = Some tt
    /\ trace (world_of r) =
         trace w ++ [EvWrite P1 led1; EvWrite P2 led2; EvWrite P9 bank] ++ rest
    /\ Z.land led1 0x01 = RED_LED_ON
    /\ Z.land led2 0x07 = RGB_LED_RED /\ RGB_LED_RED = 0x01
    /\ (forall p v, In (EvWrite p v) rest -> p = P9)
    /\ value_of (LED1_Status (world_of r)) = Some RED_LED_ON
    /\ value_of (LED2_Status (world_of r)) = Some RGB_LED_RED.
Proof.
  intros Hfuel. cbn zeta.
  rewrite LED_Pattern_2_unfold.
  destruct (counted_loop_run 100 0x01 (fun led_count => led_count <=? 0xFF)
              (fun led_count => led_count + 1) _ LED_Pattern_2_body_run 0 256
              LED_Pattern_2_trips fuel (LED_Pattern_2_entry w))
    as (n & Hw & Hle & Hn & Hs & Hv).
  cbn zeta in *. fold (LED_Pattern_2_loop fuel) in *.
  unfold world_of, value_of in *. cbn [fst snd] in *.
  assert (Hret : (1 <= n)%nat
                 /\ fst (LED_Pattern_2_loop fuel (LED_Pattern_2_entry w)) <> None).
  { destruct (fst (LED_Pattern_2_loop fuel (LED_Pattern_2_entry w))) as [[|] |].
    - destruct Hv as [-> _]. split; [lia | discriminate].
    - destruct Hv as (m & -> & _). split; [lia | discriminate].
    - exfalso. lia. }
  destruct Hret as [Hpos Hret].
  destruct n as [| n]; [lia |].
  rewrite Hw.
  destruct (after_steps_fields 100 (fun c => c + 1) (S n) 0 (LED_Pattern_2_entry w))
    as (Hp1 & Hp2 & _ & _ & Ht).
  destruct (entry_fields RED_LED_ON RGB_LED_RED w) as (He1 & He2 & _ & _ & _ & Htr).
  fold (LED_Pattern_2_entry w) in He1, He2, Htr.
  do 4 eexists.
  split.
  { destruct (fst (LED_Pattern_2_loop fuel (LED_Pattern_2_entry w)));
      [reflexivity | contradiction]. }
  split.
  { rewrite Ht, Htr, <- app_assoc. unfold counting_trace.
    cbn [seq flat_map app]. reflexivity. }
  split; [rewrite He1; apply led1_word_bit0; unfold RED_LED_ON; lia |].
  split; [rewrite He2; apply led2_word_low; unfold RGB_LED_RED; lia |].
  split; [reflexivity |].
  split.
  { intros p v [H | [H | H]]; try discriminate H.
    apply counting_events_writes in H. exact H. }
  unfold LED1_Status, LED2_Status, get_OUT, bind, ret. cbn [fst snd].
  rewrite Hp1, Hp2, He1, He2.
  split; f_equal.
  - apply led1_word_bit0. unfold RED_LED_ON. lia.
  - apply led2_word_low. unfold RGB_LED_RED. lia.
Qed.

Lemma Pattern2_sets_leds_before_counting_witness :
  exists led1 led2 bank rest,
    value_of (LED_Pattern_2 256 (board 0x00)) = Some tt
    /\ trace (world_of (LED_Pattern_2 256 (board 0x00))) =
         trace (board 0x00)
         ++ [EvWrite P1 led1; EvWrite P2 led2; EvWrite P9 bank] ++ rest
    /\ Z.land led1 0x01 = RED_LED_ON
    /\ Z.land led2 0x07 = RGB_LED_RED /\ RGB_LED_RED = 0x01
    /\ (forall p v, In (EvWrite p v) rest -> p = P9)
    /\ value_of (LED1_Status (world_of (LED_Pattern_2 256 (board 0x00))))
       = Some RED_LED_ON
    /\ value_of (LED2_Status (world_of (LED_Pattern_2 256 (board 0x00))))
       = Some RGB_LED_RED.
Proof.
  apply (Pattern2_sets_leds_before_counting 256 (board 0x00)). lia.
Defined.

(** ** Sampling order in the loops of patterns 2 to 5 *)

Lemma counting_trace_blocks (ms : Z) (val : nat -> Z) (w : World) (n : nat) :
  exists blocks,
    counting_trace ms val w n = concat blocks
    /\ length blocks = n
    /\ forall k blk, nth_error blocks k = Some blk ->
                     counting_block ms (P10_IN w (reads w + k)) blk.
Proof.
  exists (map (fun k => [EvWrite P9 (val k); EvDelay ms;
                         EvRead (P10_IN w (reads w + k))]) (seq 0 n)).
  split; [apply flat_map_concat_map |].
  split; [rewrite length_map, length_seq; reflexivity |].
  intros k blk. rewrite nth_error_map, nth_error_seq.
  destruct (k <? n)%nat; [| discriminate].
  cbn. intros [= <-]. exists (val k). reflexivity.
Qed.

(** A routine made of two LED writes and a counting loop samples after the
    effect. *)
Lemma counting_routine_samples_after (ms code : Z) cond next body (i0 : Z)
    (trips : nat) (v1 v2 : Z) (c : M unit) (fuel : nat) :
  (forall v w,
      body v w =
        (Some (if negb (switch_code w 0 =? code) then Break else Continue),
         after_step ms v w)) ->
  (forall k, cond (Nat.iter k next i0) = true <-> (k < trips)%nat) ->
  (1 <= trips)%nat ->
  (forall w,
      let w1 := world_of ((LED1_Output v1 ;; LED2_Output v2) w) in
      c w = (match value_of (for_loop fuel cond next body i0 w1) with
             | Some _ => Some tt
             | None => None
             end, world_of (for_loop fuel cond next body i0 w1))) ->
  sample_follows_effect (counting_block ms) code [P1; P2] (Some trips) fuel c.
Proof.
  intros Hbody Htrips Hpos Hc w.
  specialize (Hc w). cbn zeta in Hc.
  destruct (entry_fields v1 v2 w) as (_ & _ & _ & Hin & Hrd & Htr).
  cbn zeta in Hin, Hrd, Htr.
  set (w1 := world_of ((LED1_Output v1 ;; LED2_Output v2) w)) in *.
  destruct (counted_loop_run ms code cond next body Hbody i0 trips Htrips fuel w1)
    as (n & Hw & Hle & Hn & Hs & Hv).
  cbn zeta in Hw, Hv.
  destruct (after_steps_fields ms next n i0 w1) as (_ & _ & _ & Hr & Ht).
  destruct (counting_trace_blocks ms (fun k => uint8 (Nat.iter k next i0)) w1 n)
    as (blocks & Hcat & Hlen & Hblk).
  exists [EvWrite P1 (P1_OUT w1); EvWrite P2 (P2_OUT w1)], blocks.
  cbn zeta. rewrite Hc. clear Hc.
  unfold world_of, value_of in Hw, Hv |- *. cbn [fst snd].
  rewrite Hw, Ht, Hr, Htr, Hcat, Hlen, Hrd, <- app_assoc.
  split; [reflexivity |].
  split.
  { repeat constructor; eexists; reflexivity. }
  split.
  { intros k blk Hk. rewrite <- Hin, <- Hrd. apply Hblk. exact Hk. }
  split; [reflexivity |].
  split; [exact Hs |].
  split; [intros b [= <-]; exact Hn |].
  destruct (fst (for_loop fuel cond next body i0 w1)) as [[|] |].
  - split; [| discriminate].
    intros _. destruct Hv as [-> _].
    destruct trips as [| t]; [lia |].
    exists t. split; [reflexivity | right; reflexivity].
  - split; [| discriminate].
    intros _. destruct Hv as (m & -> & Hm).
    exists m. split; [reflexivity | left; exact Hm].
  - split; [discriminate |].
    intros _. destruct Hv as (-> & Hlt & Ha).
    split; [reflexivity |]. split; [exact Ha |].
    intros b [= <-]. exact Hlt.
Qed.

(** The bodies of the three counting loops sample last. *)
Lemma counting_body_samples_last (ms code : Z) (body : Z -> M Flow) :
  (forall v w,
      body v w =
        (Some (if negb (switch_code w 0 =? code) then Break else Continue),
         after_step ms v w)) ->
  forall led_count, iteration_samples_last (counting_block ms) code (body led_count).
Proof.
  intros Hbody led_count w.
  exists [EvWrite P9 (uint8 led_count); EvDelay ms; EvRead (P10_IN w (reads w))].
  exists (after_step ms led_count w).
  rewrite Hbody, after_step_fields. cbn [trace reads P10_IN].
  split; [destruct (switch_code w 0 =? code); reflexivity |].
  split; [reflexivity |].
  split; [exists (uint8 led_count); reflexivity |].
  split; reflexivity.
Qed.

Ltac run_blink :=
  lazy beta iota zeta delta
    [LED_Pattern_4_body after_blink blink_iteration PMOD_8LD_Output LED1_Output LED2_Output
     Clock_Delay1ms Get_PMOD_SWT_Status get_P10_IN set_OUT get_OUT bind ret
     emit world_of value_of switch_code fst snd
     P1_OUT P2_OUT P9_OUT P10_IN reads trace].

Lemma LED_Pattern_4_body_run (w : World) :
  LED_Pattern_4_body w =
    (Some (if negb (switch_code w 0 =? 0x04) then Break else Continue),
     after_blink w).
Proof.
  destruct w as [p1 p2 p9 inp rd tr]. run_blink.
  rewrite Nat.add_0_r.
  destruct (Z.land (inp rd) 15 =? 4); reflexivity.
Qed.

Lemma after_blink_fields (w : World) :
  P10_IN (after_blink w) = P10_IN w
  /\ reads (after_blink w) = S (reads w)
  /\ exists blk,
       trace (after_blink w) = trace w ++ blk
       /\ blink_block (P10_IN w (reads w)) blk.
Proof.
  destruct w as [p1 p2 p9 inp rd tr]. run_blink.
  split; [reflexivity |]. split; [reflexivity |].
  eexists. split.
  - repeat rewrite <- app_assoc. cbn [app]. reflexivity.
  - unfold blink_block. do 4 eexists. reflexivity.
Qed.

Lemma switch_code_after_blink (w : World) (k : nat) :
  switch_code (after_blink w) k = switch_code w (S k).
Proof.
  destruct (after_blink_fields w) as (Hin & Hrd & _).
  unfold switch_code. rewrite Hin, Hrd, Nat.add_succ_r. reflexivity.
Qed.

Lemma while_1_step (fuel : nat) (body : M Flow) (w w1 : World) (flow : Flow) :
  body w = (Some flow, w1) ->
  while_1 (S fuel) body w =
    match flow with
    | Break => (Some tt, w1)
    | Continue => while_1 fuel body w1
    end.
Proof.
  intros Hb. simpl. unfold bind. rewrite Hb. destruct flow; reflexivity.
Qed.

Lemma blink_loop_run (fuel : nat) :
  forall w,
  exists blocks,
    let r := while_1 fuel LED_Pattern_4_body w in
    trace (world_of r) = trace w ++ concat blocks
    /\ (forall k blk, nth_error blocks k = Some blk ->
                      blink_block (P10_IN w (reads w + k)) blk)
    /\ reads (world_of r) = (reads w + length blocks)%nat
    /\ (forall k, (S k < length blocks)%nat -> switch_code w k = 0x04)
    /\ (value_of r = Some tt ->
        exists n, length blocks = S n /\ switch_code w n <> 0x04)
    /\ (value_of r = None ->
        length blocks = fuel
        /\ forall k, (k < fuel)%nat -> switch_code w k = 0x04).
Proof.
  induction fuel as [| fuel IH]; intros w.
  - exists []. cbn. rewrite app_nil_r, Nat.add_0_r.
    repeat split; try discriminate.
    + intros [| k] blk; discriminate.
    + intros k Hk. lia.
    + intros k Hk. lia.
  - destruct (after_blink_fields w) as (Hin & Hrd & blk & Htr & Hblk).
    destruct (Z.eqb_spec (switch_code w 0) 0x04) as [Heq | Hne].
    + destruct (IH (after_blink w)) as (blocks & Ht & Hb & Hr & Hs & Hv & Hnone).
      cbn zeta in *.
      exists (blk :: blocks).
      rewrite (while_1_step fuel _ w (after_blink w) Continue).
      2:{ rewrite LED_Pattern_4_body_run.
          destruct (Z.eqb_spec (switch_code w 0) 0x04); [reflexivity | contradiction]. }
      rewrite Ht, Hr, Htr, Hrd, <- app_assoc. cbn [concat length].
      split; [reflexivity |].
      split.
      { intros [| k] b Hk.
        - injection Hk as <-. rewrite Nat.add_0_r. exact Hblk.
        - specialize (Hb k b Hk). rewrite Hin, Hrd in Hb.
          replace (reads w + S k)%nat with (S (reads w) + k)%nat by lia.
          exact Hb. }
      split; [lia |].
      split.
      { intros [| k] Hk; [exact Heq |].
        rewrite <- switch_code_after_blink. apply Hs. lia. }
      split.
      { intros Hret. destruct (Hv Hret) as (n & Hn & Hc).
        exists (S n). split; [rewrite Hn; reflexivity |].
        rewrite <- switch_code_after_blink. exact Hc. }
      intros Hrun. destruct (Hnone Hrun) as [Hlen Hall].
      split; [rewrite Hlen; reflexivity |].
      intros [| k] Hk; [exact Heq |].
      rewrite <- switch_code_after_blink. apply Hall. lia.
    + exists [blk]. cbn zeta.
      rewrite (while_1_step fuel _ w (after_blink w) Break).
      2:{ rewrite LED_Pattern_4_body_run.
          destruct (Z.eqb_spec (switch_code w 0) 0x04); [contradiction | reflexivity]. }
      cbn [world_of value_of fst snd concat length].
      rewrite Htr, Hrd, app_nil_r.
      split; [reflexivity |].
      split.
      { intros [| [| k]] b Hk; try discriminate Hk.
        injection Hk as <-. rewrite Nat.add_0_r. exact Hblk. }
      split; [lia |].
      split; [intros k Hk; lia |].
      split; [| discriminate].
      intros _. exists O. split; [reflexivity | exact Hne].
Qed.

Lemma LED_Pattern_4_body_samples_last :
  iteration_samples_last blink_block 0x04 LED_Pattern_4_body.
Proof.
  intros w. destruct (after_blink_fields w) as (Hin & Hrd & blk & Htr & Hblk).
  exists blk, (after_blink w). rewrite LED_Pattern_4_body_run.
  split; [destruct (switch_code w 0 =? 4); reflexivity |].
  repeat split; assumption.
Qed.

(** C6: in patterns 2, 3, 4 and 5 every iteration takes exactly one switch
    sample, as its last event, after the bank write(s) and delay(s) of that
    iteration, and tests it once: the body of each loop adds the events of one
    iteration ending with the sample and continues exactly when the sample
    read the pattern's code.  For the routines as a whole, observed for any
    number [fuel] of iterations: the events are the setup writes followed by
    whole iterations, one sample each; the loop goes on past a sample only if
    it read the pattern's code; the routine returns only after at least one
    whole iteration (one bank write for patterns 2, 3 and 5, one on/off cycle
    for pattern 4); and a routine that has not returned has run all [fuel]
    iterations. *)
Theorem loops_sample_after_effect (fuel : nat) :
  ((forall led_count,
       iteration_samples_last (counting_block 100) 0x01 (LED_Pattern_2_body led_count))
   /\ (forall led_count,
          iteration_samples_last (counting_block 100) 0x02 (LED_Pattern_3_body led_count))
   /\ iteration_samples_last blink_block 0x04 LED_Pattern_4_body
   /\ (forall led_count,
          iteration_samples_last (counting_block 500) 0x08 (LED_Pattern_5_body led_count)))
  /\ sample_follows_effect (counting_block 100) 0x01 [P1; P2] (Some 256%nat) fuel
       (LED_Pattern_2 fuel)
  /\ sample_follows_effect (counting_block 100) 0x02 [P1; P2] (Some 256%nat) fuel
       (LED_Pattern_3 fuel)
  /\ sample_follows_effect blink_block 0x04 [] None fuel (LED_Pattern_4 fuel)
  /\ sample_follows_effect (counting_block 500) 0x08 [P1; P2] (Some 8%nat) fuel
       (LED_Pattern_5 fuel).
Proof.
  split; [| split; [| split; [| split]]].
  - split; [| split; [| split]].
    + apply counting_body_samples_last, LED_Pattern_2_body_run.
    + apply counting_body_samples_last, LED_Pattern_3_body_run.
    + apply LED_Pattern_4_body_samples_last.
    + apply counting_body_samples_last, LED_Pattern_5_body_run.
  - apply (counting_routine_samples_after 100 0x01 (fun c => c <=? 0xFF)
             (fun c => c + 1) LED_Pattern_2_body 0 256 RED_LED_ON RGB_LED_RED
             (LED_Pattern_2 fuel) fuel LED_Pattern_2_body_run LED_Pattern_2_trips).
    + lia.
    + intros w. apply LED_Pattern_2_unfold.
  - apply (counting_routine_samples_after 100 0x02 (fun c => c >=? 0)
             (fun c => c - 1) LED_Pattern_3_body 0xFF 256 RED_LED_OFF RGB_LED_BLUE
             (LED_Pattern_3 fuel) fuel LED_Pattern_3_body_run LED_Pattern_3_trips).
    + lia.
    + intros w. apply LED_Pattern_3_unfold.
  - intros w.
    destruct (blink_loop_run fuel w) as (blocks & Ht & Hb & Hr & Hs & Hv & Hnone).
    exists [], blocks. cbn zeta in *. unfold LED_Pattern_4.
    split; [exact Ht |].
    split; [constructor |].
    split; [exact Hb |].
    split; [exact Hr |].
    split; [exact Hs |].
    split; [discriminate |].
    split.
    + intros Hret. destruct (Hv Hret) as (n & Hn & Hc).
      exists n. split; [exact Hn | left; exact Hc].
    + intros Hrun. destruct (Hnone Hrun) as [Hlen Hall].
      split; [exact Hlen |]. split; [exact Hall | discriminate].
  - apply (counting_routine_samples_after 500 0x08 (fun c => c <=? 128)
             (fun c => c * 2) LED_Pattern_5_body 0x01 8 RED_LED_OFF RGB_LED_OFF
             (LED_Pattern_5 fuel) fuel LED_Pattern_5_body_run LED_Pattern_5_trips).
    + lia.
    + intros w. apply LED_Pattern_5_unfold.
Qed.

(** ** Determinism of the selector *)

Lemma det_ret {A : Type} (a : A) : deterministic (ret a).
Proof.
  intros w1 w2 Ho Hs. cbn. repeat split; try apply Ho; try exact Hs.
  exists []. rewrite !app_nil_r. split; reflexivity.
Qed.

Lemma det_out_of_fuel {A : Type} : deterministic (@out_of_fuel A).
Proof.
  intros w1 w2 Ho Hs. cbn. repeat split; try apply Ho; try exact Hs.
  exists []. rewrite !app_nil_r. split; reflexivity.
Qed.

Lemma det_bind {A B : Type} (c : M A) (k : A -> M B) :
  deterministic c -> (forall a, deterministic (k a)) -> deterministic (bind c k).
Proof.
  intros Hc Hk w1 w2 Ho Hs.
  destruct (Hc w1 w2 Ho Hs) as (Hv & Ho' & Hs' & evs & Ht1 & Ht2).
  unfold bind, value_of, world_of in *.
  destruct (c w1) as [[a1 |] w1'], (c w2) as [[a2 |] w2']; cbn [fst snd] in *;
    try discriminate Hv.
  - injection Hv as <-.
    destruct (Hk a1 w1' w2' Ho' Hs') as (Hkv & Hko & Hks & evs' & Hk1 & Hk2).
    unfold value_of, world_of in *.
    repeat split; try assumption; try apply Hko.
    exists (evs ++ evs'). rewrite Hk1, Hk2, Ht1, Ht2, !app_assoc.
    split; reflexivity.
  - repeat split; try assumption; try apply Ho'.
    exists evs. split; assumption.
Qed.

Lemma det_if {A : Type} (b : bool) (c1 c2 : M A) :
  deterministic c1 -> deterministic c2 -> deterministic (if b then c1 else c2).
Proof. destruct b; trivial. Qed.

Lemma det_get_OUT (p : Port) : deterministic (get_OUT p).
Proof.
  intros w1 w2 Ho Hs. destruct Ho as (H1 & H2 & H9). cbn.
  split; [destruct p; congruence |].
  split; [repeat split; assumption |].
  split; [exact Hs |].
  exists []. rewrite !app_nil_r. split; reflexivity.
Qed.

Lemma det_set_OUT (p : Port) (v : Z) : deterministic (set_OUT p v).
Proof.
  intros w1 w2 Ho Hs. destruct Ho as (H1 & H2 & H9).
  unfold set_OUT, same_outputs, same_samples, value_of, world_of in *.
  split; [reflexivity |].
  split; [destruct p; cbn; repeat split; assumption |].
  split; [destruct p; cbn; exact Hs |].
  exists [EvWrite p (uint8 v)]. destruct p; split; reflexivity.
Qed.

Lemma det_get_P10_IN : deterministic get_P10_IN.
Proof.
  intros w1 w2 Ho Hs.
  assert (H0 : P10_IN w1 (reads w1) = P10_IN w2 (reads w2)).
  { specialize (Hs O). rewrite !Nat.add_0_r in Hs. exact Hs. }
  unfold get_P10_IN, same_samples, value_of, world_of in *. cbn.
  split; [f_equal; exact H0 |].
  split; [exact Ho |].
  split.
  { intros k. specialize (Hs (S k)). rewrite !Nat.add_succ_r in Hs. exact Hs. }
  exists [EvRead (P10_IN w1 (reads w1))]. split; [reflexivity |].
  rewrite H0. reflexivity.
Qed.

Lemma det_Clock_Delay1ms (ms : Z) : deterministic (Clock_Delay1ms ms).
Proof.
  intros w1 w2 Ho Hs. cbn.
  split; [reflexivity |]. split; [exact Ho |]. split; [exact Hs |].
  exists [EvDelay ms]. split; reflexivity.
Qed.

Lemma det_for_loop (fuel : nat) cond next (body : Z -> M Flow) :
  (forall i, deterministic (body i)) ->
  forall i, deterministic (for_loop fuel cond next body i).
Proof.
  intros Hbody. induction fuel as [| fuel IH]; intros i; simpl.
  - apply det_if; [apply det_out_of_fuel | apply det_ret].
  - apply det_if; [| apply det_ret].
    apply det_bind; [apply Hbody |].
    intros [|]; [apply IH | apply det_ret].
Qed.

Lemma det_while_1 (fuel : nat) (body : M Flow) :
  deterministic body -> deterministic (while_1 fuel body).
Proof.
  intros Hbody. induction fuel as [| fuel IH]; simpl.
  - apply det_out_of_fuel.
  - apply det_bind; [exact Hbody |].
    intros [|]; [exact IH | apply det_ret].
Qed.

Create HintDb gpio_det.
#[local] Hint Resolve det_ret det_out_of_fuel det_get_OUT det_set_OUT
  det_get_P10_IN det_Clock_Delay1ms : gpio_det.

Ltac det_steps :=
  repeat match goal with
         | |- deterministic (bind _ _) => apply det_bind; [| intros ?]
         | |- deterministic (if _ then _ else _) => apply det_if
         | |- deterministic (for_loop _ _ _ _ _) => apply det_for_loop; intros ?
         | |- deterministic (while_1 _ _) => apply det_while_1
         | |- _ => solve [auto with gpio_det]
         end.

Lemma det_LED1_Output (v : Z) : deterministic (LED1_Output v).
Proof. unfold LED1_Output. det_steps. Qed.

Lemma det_LED2_Output (v : Z) : deterministic (LED2_Output v).
Proof. unfold LED2_Output. det_steps. Qed.

Lemma det_PMOD_8LD_Output (v : Z) : deterministic (PMOD_8LD_Output v).
Proof. unfold PMOD_8LD_Output. det_steps. Qed.

Lemma det_Get_PMOD_SWT_Status : deterministic Get_PMOD_SWT_Status.
Proof. unfold Get_PMOD_SWT_Status. det_steps. Qed.

#[local] Hint Resolve det_LED1_Output det_LED2_Output det_PMOD_8LD_Output
  det_Get_PMOD_SWT_Status : gpio_det.

Lemma det_LED_Pattern_1 (button_status : Z) : deterministic (LED_Pattern_1 button_status).
Proof. unfold LED_Pattern_1. det_steps. Qed.

Lemma det_LED_Pattern_2 (fuel : nat) : deterministic (LED_Pattern_2 fuel).
Proof.
  unfold LED_Pattern_2, LED_Pattern_2_loop, LED_Pattern_2_body. det_steps.
Qed.

Lemma det_LED_Pattern_3 (fuel : nat) : deterministic (LED_Pattern_3 fuel).
Proof.
  unfold LED_Pattern_3, LED_Pattern_3_loop, LED_Pattern_3_body. det_steps.
Qed.

Lemma det_LED_Pattern_4 (fuel : nat) : deterministic (LED_Pattern_4 fuel).
Proof. unfold LED_Pattern_4, LED_Pattern_4_body. det_steps. Qed.

Lemma det_LED_Pattern_5 (fuel : nat) : deterministic (LED_Pattern_5 fuel).
Proof.
  unfold LED_Pattern_5, LED_Pattern_5_loop, LED_Pattern_5_body. det_steps.
Qed.

#[local] Hint Resolve det_LED_Pattern_1 det_LED_Pattern_2 det_LED_Pattern_3
  det_LED_Pattern_4 det_LED_Pattern_5 : gpio_det.

Lemma det_LED_Controller (fuel : nat) (button_status switch_status : Z) :
  deterministic (LED_Controller fuel button_status switch_status).
Proof.
  unfold LED_Controller. det_steps.
Qed.

Lemma new_events_app (w w' : World) (evs : list Event) :
  trace w' = trace w ++ evs -> new_events w w' = evs.
Proof.
  intros H. unfold new_events. rewrite H, skipn_app, skipn_all, Nat.sub_diag.
  reflexivity.
Qed.

(** C8: two runs of [LED_Controller] on the same button and switch codes,
    from worlds with the same output registers and in which every switch
    sample still to come reads the same, return the same way, add the same
    sequence of writes, delays and samples to the trace, and end with the
    same output registers. *)
Theorem LED_Controller_deterministic (fuel : nat) (button_status switch_status : Z)
    (w1 w2 : World) :
  P1_OUT w1 = P1_OUT w2 -> P2_OUT w1 = P2_OUT w2 -> P9_OUT w1 = P9_OUT w2 ->
  (forall k, P10_IN w1 (reads w1 + k) = P10_IN w2 (reads w2 + k)) ->
  let r1 := LED_Controller fuel button_status switch_status w1 in
  let r2 := LED_Controller fuel button_status switch_status w2 in
  value_of r1 = value_of r2
  /\ new_events w1 (world_of r1) = new_events w2 (world_of r2)
  /\ same_outputs (world_of r1) (world_of r2).
Proof.
  intros H1 H2 H9 Hs. cbn zeta.
  destruct (det_LED_Controller fuel button_status switch_status w1 w2)
    as (Hv & Ho & _ & evs & Ht1 & Ht2).
  - repeat split; assumption.
  - exact Hs.
  - split; [exact Hv |]. split; [| exact Ho].
    rewrite (new_events_app _ _ _ Ht1), (new_events_app _ _ _ Ht2). reflexivity.
Qed.

Lemma LED_Controller_deterministic_witness :
  let r1 := LED_Controller 256 0x12 0x01 (board 0x01) in
  let r2 := LED_Controller 256 0x12 0x01 (later_board 0x01) in
  value_of r1 = value_of r2
  /\ new_events (board 0x01) (world_of r1) = new_events (later_board 0x01) (world_of r2)
  /\ same_outputs (world_of r1) (world_of r2).
Proof.
  apply (LED_Controller_deterministic 256 0x12 0x01 (board 0x01) (later_board 0x01)).
  - reflexivity.
  - reflexivity.
  - reflexivity.
  - intros k. cbn [board later_board P10_IN reads].
    destruct (Nat.ltb_spec (3 + k) 3); [lia | reflexivity].
Defined.

(** * Further properties of the driver *)

(** ** More bit-level facts *)

Ltac bits8x :=
  apply Z.bits_inj'; intros n Hn;
  repeat rewrite ?Z.land_spec, ?Z.lor_spec, ?Z.lxor_spec, ?uint8_testbit
    by assumption;
  bit_cases n;
  [ repeat match goal with
           | |- context [Z.testbit ?x ?k] => is_var x; destruct (Z.testbit x k)
           end; vm_compute; reflexivity ..
  | replace (n <? 8) with false by (symmetry; apply Z.ltb_ge; lia);
    repeat match goal with
           | |- context [Z.testbit ?c n] =>
               tryif is_var c then fail
               else rewrite (byte_testbit_high c n) by lia
           end;
    repeat (cbn; rewrite ?andb_false_r, ?orb_false_r); reflexivity ].

(** The words the output functions store, without the conversion. *)
Lemma led1_word (out v : Z) :
  0 <= v <= 1 ->
  uint8 (Z.lor (Z.land out 0xFE) v) = Z.lor (Z.land out 0xFE) v.
Proof.
  intros Hv. assert (Hc : v = 0 \/ v = 1) by lia.
  destruct Hc as [-> | ->]; bits8x.
Qed.

Lemma led2_word (out v : Z) :
  0 <= v <= 7 ->
  uint8 (Z.lor (Z.land out 0xF8) v) = Z.lor (Z.land out 0xF8) v.
Proof.
  intros Hv.
  assert (Hc : v = 0 \/ v = 1 \/ v = 2 \/ v = 3 \/ v = 4 \/ v = 5 \/ v = 6 \/ v = 7)
    by lia.
  repeat (destruct Hc as [Hc | Hc]); subst v; bits8x.
Qed.

(** Writing an LED value over another one leaves what writing it directly
    would. *)
Lemma led1_word_twice (out v v' : Z) :
  0 <= v <= 1 -> 0 <= v' <= 1 ->
  Z.lor (Z.land (Z.lor (Z.land out 0xFE) v) 0xFE) v' = Z.lor (Z.land out 0xFE) v'.
Proof.
  intros Hv Hv'.
  assert (Hc : v = 0 \/ v = 1) by lia. assert (Hc' : v' = 0 \/ v' = 1) by lia.
  destruct Hc as [-> | ->], Hc' as [-> | ->]; bits8x.
Qed.

Lemma led2_word_twice (out v v' : Z) :
  0 <= v <= 7 -> 0 <= v' <= 7 ->
  Z.lor (Z.land (Z.lor (Z.land out 0xF8) v) 0xF8) v' = Z.lor (Z.land out 0xF8) v'.
Proof.
  intros Hv Hv'.
  assert (Hc : v = 0 \/ v = 1 \/ v = 2 \/ v = 3 \/ v = 4 \/ v = 5 \/ v = 6 \/ v = 7)
    by lia.
  assert (Hc' : v' = 0 \/ v' = 1 \/ v' = 2 \/ v' = 3 \/ v' = 4 \/ v' = 5 \/ v' = 6
                \/ v' = 7) by lia.
  repeat (destruct Hc as [Hc | Hc]); subst v;
    repeat (destruct Hc' as [Hc' | Hc']); subst v'; bits8x.
Qed.

Lemma land_mask_lor_0 (out mask : Z) : Z.lor (Z.land out mask) 0 = Z.land out mask.
Proof. apply Z.lor_0_r. Qed.

(** What the two LED output functions do to a world. *)
Lemma LED1_Output_run (v : Z) (w : World) :
  0 <= v <= 1 ->
  LED1_Output v w =
    (Some tt,
     mkWorld (Z.lor (Z.land (P1_OUT w) 0xFE) v) (P2_OUT w) (P9_OUT w) (P10_IN w)
       (reads w) (trace w ++ [EvWrite P1 (Z.lor (Z.land (P1_OUT w) 0xFE) v)])).
Proof.
  intros Hv. unfold LED1_Output, bind, get_OUT, set_OUT, emit. cbn.
  rewrite led1_word by exact Hv. reflexivity.
Qed.

Lemma LED2_Output_run (v : Z) (w : World) :
  0 <= v <= 7 ->
  LED2_Output v w =
    (Some tt,
     mkWorld (P1_OUT w) (Z.lor (Z.land (P2_OUT w) 0xF8) v) (P9_OUT w) (P10_IN w)
       (reads w) (trace w ++ [EvWrite P2 (Z.lor (Z.land (P2_OUT w) 0xF8) v)])).
Proof.
  intros Hv. unfold LED2_Output, bind, get_OUT, set_OUT, emit. cbn.
  rewrite led2_word by exact Hv. reflexivity.
Qed.

Lemma PMOD_8LD_Output_run (v : Z) (w : World) :
  PMOD_8LD_Output v w =
    (Some (uint8 v),
     mkWorld (P1_OUT w) (P2_OUT w) (uint8 v) (P10_IN w) (reads w)
       (trace w ++ [EvWrite P9 (uint8 v)])).
Proof. reflexivity. Qed.

(** ** Writing an LED and reading it back *)

(** X1: what [LED1_Output], [LED2_Output] and [PMOD_8LD_Output] write is what
    [LED1_Status], [LED2_Status] and the bank register then hold: an onboard
    value 0 or 1, a tri-color code 0..7 and a bank byte come back unchanged,
    whatever the port registers held before. *)
Theorem output_then_status_round_trip (v1 v2 v9 : Z) (w : World) :
  0 <= v1 <= 1 -> 0 <= v2 <= 7 -> 0 <= v9 < 256 ->
  value_of ((LED1_Output v1 ;; LED1_Status) w) = Some v1
  /\ value_of ((LED2_Output v2 ;; LED2_Status) w) = Some v2
  /\ value_of (PMOD_8LD_Output v9 w) = Some v9
  /\ P9_OUT (world_of (PMOD_8LD_Output v9 w)) = v9.
Proof.
  intros H1 H2 H9.
  unfold bind at 1 2. rewrite LED1_Output_run, LED2_Output_run by assumption.
  rewrite PMOD_8LD_Output_run.
  unfold LED1_Status, LED2_Status, bind, get_OUT, ret, value_of, world_of.
  cbn [fst snd P1_OUT P2_OUT P9_OUT].
  rewrite (uint8_small v9) by exact H9.
  repeat split; f_equal.
  - rewrite <- (led1_word _ v1) by exact H1. apply led1_word_bit0. exact H1.
  - rewrite <- (led2_word _ v2) by exact H2. apply led2_word_low. exact H2.
Qed.

Lemma output_then_status_round_trip_witness :
  value_of ((LED1_Output RED_LED_ON ;; LED1_Status) (board 0x00)) = Some RED_LED_ON
  /\ value_of ((LED2_Output RGB_LED_SKY_BLUE ;; LED2_Status) (board 0x00))
     = Some RGB_LED_SKY_BLUE
  /\ value_of (PMOD_8LD_Output 0xA5 (board 0x00)) = Some 0xA5
  /\ P9_OUT (world_of (PMOD_8LD_Output 0xA5 (board 0x00))) = 0xA5.
Proof.
  apply (output_then_status_round_trip RED_LED_ON RGB_LED_SKY_BLUE 0xA5 (board 0x00));
    unfold RED_LED_ON, RGB_LED_SKY_BLUE; lia.
Defined.

(** ** Toggling the tri-color LED *)

Lemma toggle_word_low (out v : Z) :
  0 <= v <= 7 ->
  Z.land (uint8 (Z.lxor out v)) 0x07 = Z.lxor (Z.land out 0x07) v.
Proof.
  intros Hv.
  assert (Hc : v = 0 \/ v = 1 \/ v = 2 \/ v = 3 \/ v = 4 \/ v = 5 \/ v = 6 \/ v = 7)
    by lia.
  repeat (destruct Hc as [Hc | Hc]); subst v; bits8x.
Qed.

Lemma toggle_word_frame (out v : Z) :
  0 <= v <= 7 ->
  Z.land (uint8 (Z.lxor out v)) 0xF8 = Z.land out 0xF8.
Proof.
  intros Hv.
  assert (Hc : v = 0 \/ v = 1 \/ v = 2 \/ v = 3 \/ v = 4 \/ v = 5 \/ v = 6 \/ v = 7)
    by lia.
  repeat (destruct Hc as [Hc | Hc]); subst v; bits8x.
Qed.

Lemma toggle_word_twice (out v : Z) :
  uint8 (Z.lxor (uint8 (Z.lxor out v)) v) = uint8 out.
Proof. bits8x. Qed.

(** X2: [LED2_Toggle] with a tri-color code flips exactly the LED bits named
    by the code: the status afterwards is the old status XOR the code, bits
    3..7 of [P2->OUT] are kept, and toggling a second time with the same value
    (any byte) brings the register back. *)
Theorem LED2_Toggle_flips_and_restores (v : Z) (w : World) :
  0 <= v <= 7 ->
  value_of ((LED2_Toggle v ;; LED2_Status) w)
    = Some (Z.lxor (Z.land (P2_OUT w) 0x07) v)
  /\ Z.land (P2_OUT (world_of (LED2_Toggle v w))) 0xF8 = Z.land (P2_OUT w) 0xF8
  /\ forall v', P2_OUT (world_of ((LED2_Toggle v' ;; LED2_Toggle v') w))
                = uint8 (P2_OUT w).
Proof.
  intros Hv.
  unfold LED2_Toggle, LED2_Status, bind, get_OUT, set_OUT, ret, emit,
    value_of, world_of.
  cbn [fst snd P1_OUT P2_OUT P9_OUT].
  split; [f_equal; apply toggle_word_low; exact Hv |].
  split; [apply toggle_word_frame; exact Hv |].
  intros v'. apply toggle_word_twice.
Qed.

Lemma LED2_Toggle_flips_and_restores_witness :
  let w := mkWorld 0x13 0xCA 0x00 (fun _ => 0) 0 [] in
  value_of ((LED2_Toggle RGB_LED_BLUE ;; LED2_Status) w)
    = Some (Z.lxor (Z.land (P2_OUT w) 0x07) RGB_LED_BLUE)
  /\ Z.land (P2_OUT (world_of (LED2_Toggle RGB_LED_BLUE w))) 0xF8
     = Z.land (P2_OUT w) 0xF8
  /\ forall v', P2_OUT (world_of ((LED2_Toggle v' ;; LED2_Toggle v') w))
                = uint8 (P2_OUT w).
Proof.
  apply (LED2_Toggle_flips_and_restores RGB_LED_BLUE
           (mkWorld 0x13 0xCA 0x00 (fun _ => 0) 0 [])).
  unfold RGB_LED_BLUE. lia.
Defined.

(** ** Pattern 1: the register table *)

Ltac run_out :=
  lazy beta iota zeta delta
    [PMOD_8LD_Output LED1_Output LED2_Output Clock_Delay1ms
     Get_PMOD_SWT_Status get_P10_IN set_OUT get_OUT bind ret emit world_of
     value_of fst snd P1_OUT P2_OUT P9_OUT P10_IN reads trace].

Ltac led_words :=
  unfold RED_LED_ON, RED_LED_OFF, RGB_LED_OFF, RGB_LED_RED, RGB_LED_GREEN,
    RGB_LED_BLUE, RGB_LED_PINK, PMOD_8LD_ALL_ON, PMOD_8LD_ALL_OFF;
  repeat rewrite led1_word by lia; repeat rewrite led2_word by lia;
  repeat rewrite led1_word_twice by lia; repeat rewrite led2_word_twice by lia;
  repeat rewrite Z.lor_0_r.

(** Result and final output registers of [LED_Pattern_1] in its four cases. *)
Lemma LED_Pattern_1_registers (button_status : Z) (w : World) :
  In button_status [0x00; 0x10; 0x02; 0x12] ->
  let w' := world_of (LED_Pattern_1 button_status w) in
  value_of (LED_Pattern_1 button_status w) = Some tt
  /\ P1_OUT w' = Z.lor (Z.land (P1_OUT w) 0xFE)
                   (if button_status =? 0x10 then RED_LED_ON else RED_LED_OFF)
  /\ P2_OUT w' = Z.lor (Z.land (P2_OUT w) 0xF8)
                   (if button_status =? 0x02 then RGB_LED_PINK else RGB_LED_OFF)
  /\ P9_OUT w' = (if button_status =? 0x00 then PMOD_8LD_ALL_OFF
                  else if button_status =? 0x10 then 0x55
                  else if button_status =? 0x02 then 0xAA
                  else PMOD_8LD_ALL_ON).
Proof.
  intros Hin. destruct w as [p1 p2 p9 inp rd tr].
  simpl in Hin.
  destruct Hin as [<- | [<- | [<- | [<- | []]]]];
    unfold LED_Pattern_1; cbn [Z.eqb Pos.eqb]; cbn zeta; run_out;
    led_words; repeat split.
Qed.

Lemma LED_Pattern_1_no_case (button_status : Z) (w : World) :
  ~ In button_status [0x00; 0x10; 0x02; 0x12] ->
  LED_Pattern_1 button_status w = (Some tt, w).
Proof.
  intros Hout. unfold LED_Pattern_1.
  repeat match goal with
         | |- context [?a =? ?b] =>
             destruct (Z.eqb_spec a b) as [-> | ?];
             [exfalso; apply Hout; simpl; tauto |]
         end.
  reflexivity.
Qed.

Lemma button_code_dec (button_status : Z) :
  {In button_status [0x00; 0x10; 0x02; 0x12]}
  + {~ In button_status [0x00; 0x10; 0x02; 0x12]}.
Proof. apply in_dec. apply Z.eq_dec. Qed.

(** X3: the display left by pattern 1 for each of the four button codes, as
    the status functions read it: the onboard LED is on only for 0x10
    (button 1 pressed), the tri-color LED is pink only for 0x02 (button 2
    pressed) and off otherwise, the bank is 0x00, 0x55, 0xAA, 0xFF for 0x00,
    0x10, 0x02, 0x12, and the bits of the two LED ports that drive no LED are
    kept. *)
Theorem Pattern1_display_table (fuel : nat) (button_status : Z) (w : World) :
  In button_status [0x00; 0x10; 0x02; 0x12] ->
  let r := LED_Controller fuel button_status 0x00 w in
  value_of r = Some tt
  /\ value_of (LED1_Status (world_of r))
     = Some (if button_status =? 0x10 then RED_LED_ON else RED_LED_OFF)
  /\ value_of (LED2_Status (world_of r))
     = Some (if button_status =? 0x02 then RGB_LED_PINK else RGB_LED_OFF)
  /\ P9_OUT (world_of r)
     = (if button_status =? 0x00 then PMOD_8LD_ALL_OFF
        else if button_status =? 0x10 then 0x55
        else if button_status =? 0x02 then 0xAA
        else PMOD_8LD_ALL_ON)
  /\ same_other_bits w (world_of r).
Proof.
  intros Hin. cbn zeta.
  change (LED_Controller fuel button_status 0 w) with (LED_Pattern_1 button_status w).
  destruct (LED_Pattern_1_registers button_status w Hin) as (Hv & H1 & H2 & H9).
  cbn zeta in H1, H2, H9.
  set (w' := world_of (LED_Pattern_1 button_status w)) in *.
  unfold LED1_Status, LED2_Status, bind, get_OUT, ret, same_other_bits, value_of.
  cbn [fst snd]. rewrite H1, H2, H9.
  simpl in Hin.
  destruct Hin as [<- | [<- | [<- | [<- | []]]]]; cbn [Z.eqb Pos.eqb];
    (split; [exact Hv |]);
    (split; [f_equal; rewrite <- led1_word by (unfold RED_LED_ON, RED_LED_OFF; lia);
             apply led1_word_bit0; unfold RED_LED_ON, RED_LED_OFF; lia |]);
    (split; [f_equal; rewrite <- led2_word by (unfold RGB_LED_PINK, RGB_LED_OFF; lia);
             apply led2_word_low; unfold RGB_LED_PINK, RGB_LED_OFF; lia |]);
    (split; [reflexivity |]);
    (split; [rewrite <- led1_word by (unfold RED_LED_ON, RED_LED_OFF; lia);
             apply led1_word_frame; unfold RED_LED_ON, RED_LED_OFF; lia
            | rewrite <- led2_word by (unfold RGB_LED_PINK, RGB_LED_OFF; lia);
              apply led2_word_frame; unfold RGB_LED_PINK, RGB_LED_OFF; lia]).
Qed.

Lemma Pattern1_display_table_witness :
  let r := LED_Controller 0 0x10 0x00 (board 0x00) in
  value_of r = Some tt
  /\ value_of (LED1_Status (world_of r)) = Some RED_LED_ON
  /\ value_of (LED2_Status (world_of r)) = Some RGB_LED_OFF
  /\ P9_OUT (world_of r) = 0x55
  /\ same_other_bits (board 0x00) (world_of r).
Proof.
  apply (Pattern1_display_table 0 0x10 (board 0x00)).
  simpl. right. left. reflexivity.
Defined.

(** X4: pattern 1 is idempotent on the display: run twice in a row with the
    same button code (any byte, also one without a case) it leaves the three
    output registers as a single run does, from any start. *)
Theorem Pattern1_twice_same_display (button_status : Z) (w : World) :
  let once := world_of (LED_Pattern_1 button_status w) in
  let twice :=
    world_of ((LED_Pattern_1 button_status ;; LED_Pattern_1 button_status) w) in
  same_outputs twice once.
Proof.
  cbn zeta. unfold bind, same_outputs.
  destruct (button_code_dec button_status) as [Hin | Hout].
  - destruct (LED_Pattern_1_registers button_status w Hin) as (Hv & H1 & H2 & H9).
    cbn zeta in H1, H2, H9. unfold value_of, world_of in *.
    destruct (LED_Pattern_1 button_status w) as [[[] |] w1]; cbn [fst snd] in *;
      [| discriminate Hv].
    destruct (LED_Pattern_1_registers button_status w1 Hin) as (_ & H1' & H2' & H9').
    cbn zeta in H1', H2', H9'. unfold world_of in *.
    rewrite H1', H2', H9', H1, H2, H9.
    split; [| split; [| reflexivity]].
    + apply led1_word_twice; destruct (button_status =? 16);
        unfold RED_LED_ON, RED_LED_OFF; lia.
    + apply led2_word_twice; destruct (button_status =? 2);
        unfold RGB_LED_PINK, RGB_LED_OFF; lia.
  - rewrite (LED_Pattern_1_no_case button_status w Hout).
    rewrite (LED_Pattern_1_no_case button_status w Hout).
    repeat split.
Qed.

(** ** The selector leaves the non-LED bits alone *)

Section StepsWithin.

Variable R : World -> World -> Prop.
Hypothesis R_refl : forall w, R w w.
Hypothesis R_trans : forall w1 w2 w3, R w1 w2 -> R w2 w3 -> R w1 w3.

Lemma within_ret {A : Type} (a : A) : steps_within R (ret a).
Proof. intros w. apply R_refl. Qed.

Lemma within_out_of_fuel {A : Type} : steps_within R (@out_of_fuel A).
Proof. intros w. apply R_refl. Qed.

Lemma within_bind {A B : Type} (c : M A) (k : A -> M B) :
  steps_within R c -> (forall a, steps_within R (k a)) ->
  steps_within R (bind c k).
Proof.
  intros Hc Hk w. specialize (Hc w). unfold bind, world_of in *.
  destruct (c w) as [[a |] w1]; cbn [snd] in *.
  - apply R_trans with w1; [exact Hc | apply Hk].
  - exact Hc.
Qed.

Lemma within_if {A : Type} (b : bool) (c1 c2 : M A) :
  steps_within R c1 -> steps_within R c2 ->
  steps_within R (if b then c1 else c2).
Proof. destruct b; trivial. Qed.

Lemma within_for_loop (fuel : nat) cond next (body : Z -> M Flow) :
  (forall i, steps_within R (body i)) ->
  forall i, steps_within R (for_loop fuel cond next body i).
Proof.
  intros Hbody. induction fuel as [| fuel IH]; intros i; simpl.
  - apply within_if; [apply within_out_of_fuel | apply within_ret].
  - apply within_if; [| apply within_ret].
    apply within_bind; [apply Hbody |].
    intros [|]; [apply IH | apply within_ret].
Qed.

Lemma within_while_1 (fuel : nat) (body : M Flow) :
  steps_within R body -> steps_within R (while_1 fuel body).
Proof.
  intros Hbody. induction fuel as [| fuel IH]; simpl.
  - apply within_out_of_fuel.
  - apply within_bind; [exact Hbody |].
    intros [|]; [exact IH | apply within_ret].
Qed.

End StepsWithin.

Lemma same_other_bits_refl (w : World) : same_other_bits w w.
Proof. split; reflexivity. Qed.

Lemma same_other_bits_trans (w1 w2 w3 : World) :
  same_other_bits w1 w2 -> same_other_bits w2 w3 -> same_other_bits w1 w3.
Proof. intros [H1 H2] [H1' H2']. split; congruence. Qed.

Lemma other_bits_LED1_Output (v : Z) :
  0 <= v <= 1 -> steps_within same_other_bits (LED1_Output v).
Proof.
  intros Hv w. rewrite LED1_Output_run by exact Hv. split; cbn.
  - rewrite <- led1_word by exact Hv. apply led1_word_frame. exact Hv.
  - reflexivity.
Qed.

Lemma other_bits_LED2_Output (v : Z) :
  0 <= v <= 7 -> steps_within same_other_bits (LED2_Output v).
Proof.
  intros Hv w. rewrite LED2_Output_run by exact Hv. split; cbn.
  - reflexivity.
  - rewrite <- led2_word by exact Hv. apply led2_word_frame. exact Hv.
Qed.

Lemma other_bits_PMOD_8LD_Output (v : Z) :
  steps_within same_other_bits (PMOD_8LD_Output v).
Proof. intros w. split; reflexivity. Qed.

Lemma other_bits_Clock_Delay1ms (ms : Z) :
  steps_within same_other_bits (Clock_Delay1ms ms).
Proof. intros w. split; reflexivity. Qed.

Lemma other_bits_Get_PMOD_SWT_Status :
  steps_within same_other_bits Get_PMOD_SWT_Status.
Proof. intros w. split; reflexivity. Qed.

Ltac other_bits_steps :=
  repeat match goal with
         | |- steps_within _ (bind _ _) =>
             apply (within_bind _ same_other_bits_trans); [| intros ?]
         | |- steps_within _ (if _ then _ else _) => apply within_if
         | |- steps_within _ (for_loop _ _ _ _ _) =>
             apply (within_for_loop _ same_other_bits_refl same_other_bits_trans);
             intros ?
         | |- steps_within _ (while_1 _ _) =>
             apply (within_while_1 _ same_other_bits_refl same_other_bits_trans)
         | |- steps_within _ (ret _) => apply (within_ret _ same_other_bits_refl)
         | |- steps_within _ (LED1_Output _) =>
             apply other_bits_LED1_Output; unfold RED_LED_ON, RED_LED_OFF; lia
         | |- steps_within _ (LED2_Output _) =>
             apply other_bits_LED2_Output;
             unfold RGB_LED_OFF, RGB_LED_RED, RGB_LED_GREEN, RGB_LED_BLUE,
               RGB_LED_PINK; lia
         | |- steps_within _ (PMOD_8LD_Output _) => apply other_bits_PMOD_8LD_Output
         | |- steps_within _ (Clock_Delay1ms _) => apply other_bits_Clock_Delay1ms
         | |- steps_within _ Get_PMOD_SWT_Status =>
             apply other_bits_Get_PMOD_SWT_Status
         end.

Lemma other_bits_LED_Controller (fuel : nat) (button_status switch_status : Z) :
  steps_within same_other_bits (LED_Controller fuel button_status switch_status).
Proof.
  unfold LED_Controller, LED_Pattern_1, LED_Pattern_2, LED_Pattern_2_loop,
    LED_Pattern_2_body, LED_Pattern_3, LED_Pattern_3_loop, LED_Pattern_3_body,
    LED_Pattern_4, LED_Pattern_4_body, LED_Pattern_5, LED_Pattern_5_loop,
    LED_Pattern_5_body.
  other_bits_steps.
Qed.

(** X5: whatever the codes, the switch input and the number of loop
    iterations observed, [LED_Controller] changes [P1->OUT] at most in bit 0
    and [P2->OUT] at most in bits 0..2; in particular the pull-up selection of
    the two buttons, bits 1 and 4 of [P1->OUT], is as before. *)
Theorem LED_Controller_keeps_other_bits (fuel : nat) (button_status switch_status : Z)
    (w : World) :
  let w' := world_of (LED_Controller fuel button_status switch_status w) in
  same_other_bits w w'
  /\ Z.land (P1_OUT w') 0x12 = Z.land (P1_OUT w) 0x12.
Proof.
  cbn zeta.
  pose proof (other_bits_LED_Controller fuel button_status switch_status w) as H.
  split; [exact H |].
  destruct H as [H1 _].
  change 0x12 with (Z.land 0xFE 0x12).
  rewrite !Z.land_assoc, H1. reflexivity.
Qed.

(** ** Counting loops: where they stop *)

Lemma after_steps_bank (ms : Z) next (n : nat) (i : Z) (w : World) :
  P9_OUT (after_steps ms next (S n) i w) = uint8 (Nat.iter n next i).
Proof. rewrite after_steps_snoc, after_step_fields. reflexivity. Qed.

(** A counting loop whose first [k] samples read [code] and whose next sample
    does not, or is the one of the last trip, runs exactly [k + 1]
    iterations; it is left by [break] exactly when that last sample differs
    from [code]. *)
Lemma counted_loop_stops (ms code : Z) cond next (body : Z -> M Flow) (i0 : Z)
    (trips fuel k : nat) (w : World) :
  (forall v w,
      body v w =
        (Some (if negb (switch_code w 0 =? code) then Break else Continue),
         after_step ms v w)) ->
  (forall j, cond (Nat.iter j next i0) = true <-> (j < trips)%nat) ->
  (trips <= fuel)%nat -> (k < trips)%nat ->
  (forall j, (j < k)%nat -> switch_code w j = code) ->
  (S k = trips \/ switch_code w k <> code) ->
  for_loop fuel cond next body i0 w =
    (Some (if switch_code w k =? code then ExitCond else ExitBreak),
     after_steps ms next (S k) i0 w).
Proof.
  intros Hbody Htrips Hfuel Hk Hheld Hlast.
  destruct (counted_loop_run ms code cond next body Hbody i0 trips Htrips fuel w)
    as (n & Hw & Hle & Hn & Hs & Hv).
  cbn zeta in Hw, Hv. unfold world_of, value_of in Hw, Hv.
  destruct (for_loop fuel cond next body i0 w) as [[[|] |] w']; cbn [fst snd] in *.
  - destruct Hv as [-> Ha].
    assert (Hcode : switch_code w k = code) by (apply Ha; exact Hk).
    destruct Hlast as [<- | Hne]; [| contradiction].
    rewrite Hcode, Z.eqb_refl, Hw. reflexivity.
  - destruct Hv as (m & -> & Hm).
    assert (m = k).
    { destruct (Nat.lt_trichotomy m k) as [Hlt | [Heq | Hgt]].
      - exfalso. apply Hm, Hheld, Hlt.
      - exact Heq.
      - exfalso. destruct Hlast as [Heq | Hne]; [lia |].
        apply Hne, Hs. lia. }
    subst m. rewrite Hw.
    destruct (Z.eqb_spec (switch_code w k) code); [contradiction | reflexivity].
  - exfalso. lia.
Qed.

(** The same for a whole routine: two LED writes, then the loop. *)
Lemma counting_routine_stops (ms code : Z) cond next (body : Z -> M Flow) (i0 : Z)
    (trips fuel k : nat) (v1 v2 : Z) (c : M unit) (w : World) :
  (forall v w,
      body v w =
        (Some (if negb (switch_code w 0 =? code) then Break else Continue),
         after_step ms v w)) ->
  (forall j, cond (Nat.iter j next i0) = true <-> (j < trips)%nat) ->
  0 <= v1 <= 1 -> 0 <= v2 <= 7 ->
  (let w1 := world_of ((LED1_Output v1 ;; LED2_Output v2) w) in
   c w = (match value_of (for_loop fuel cond next body i0 w1) with
          | Some _ => Some tt
          | None => None
          end, world_of (for_loop fuel cond next body i0 w1))) ->
  (trips <= fuel)%nat -> (k < trips)%nat ->
  (forall j, (j < k)%nat -> switch_code w j = code) ->
  (S k = trips \/ switch_code w k <> code) ->
  let w1 := world_of ((LED1_Output v1 ;; LED2_Output v2) w) in
  value_of (c w) = Some tt
  /\ value_of (for_loop fuel cond next body i0 w1)
     = Some (if switch_code w k =? code then ExitCond else ExitBreak)
  /\ P1_OUT (world_of (c w)) = Z.lor (Z.land (P1_OUT w) 0xFE) v1
  /\ P2_OUT (world_of (c w)) = Z.lor (Z.land (P2_OUT w) 0xF8) v2
  /\ P9_OUT (world_of (c w)) = uint8 (Nat.iter k next i0)
  /\ reads (world_of (c w)) = (reads w + S k)%nat
  /\ trace (world_of (c w)) =
       trace w
       ++ [EvWrite P1 (Z.lor (Z.land (P1_OUT w) 0xFE) v1);
           EvWrite P2 (Z.lor (Z.land (P2_OUT w) 0xF8) v2)]
       ++ flat_map (fun j => [EvWrite P9 (uint8 (Nat.iter j next i0)); EvDelay ms;
                              EvRead (P10_IN w (reads w + j))]) (seq 0 (S k)).
Proof.
  intros Hbody Htrips Hv1 Hv2 Hc Hfuel Hk Hheld Hlast. cbn zeta in *.
  destruct (entry_fields v1 v2 w) as (He1 & He2 & _ & Hin & Hrd & Htr).
  cbn zeta in He1, He2, Hin, Hrd, Htr.
  set (w1 := world_of ((LED1_Output v1 ;; LED2_Output v2) w)) in *.
  rewrite led1_word in He1 by exact Hv1. rewrite led2_word in He2 by exact Hv2.
  rewrite He1, He2 in Htr.
  assert (Hrun := counted_loop_stops ms code cond next body i0 trips fuel k w1
                    Hbody Htrips Hfuel Hk Hheld Hlast).
  change (switch_code w1 k) with (switch_code w k) in Hrun.
  rewrite Hrun in Hc |- *. rewrite Hc. clear Hc Hrun.
  unfold value_of, world_of. cbn [fst snd].
  destruct (after_steps_fields ms next (S k) i0 w1) as (Hp1 & Hp2 & _ & Hr & Ht).
  rewrite after_steps_bank, Hp1, Hp2, Hr, Ht, He1, He2, Hrd, Htr, <- app_assoc.
  unfold counting_trace. rewrite Hin, Hrd.
  repeat split.
Qed.

(** ** Pattern 2 cancelled *)

(** X6: if the switches stop reading 0x01 at the resample of step k (k in
    0..255, the earlier resamples reading 0x01), [LED_Pattern_2] has written
    0, 1, ..., k to the bank, each followed by 100 ms and one sample, leaves
    its loop by [break] and returns with the bank still showing k, the
    onboard LED on and the tri-color LED red. *)
Theorem Pattern2_stops_when_switch_changes (fuel : nat) (w : World) (k : nat) :
  (256 <= fuel)%nat -> (k < 256)%nat ->
  (forall j, (j < k)%nat -> switch_code w j = 0x01) ->
  switch_code w k <> 0x01 ->
  let r := LED_Pattern_2 fuel w in
  value_of r = Some tt
  /\ value_of (LED_Pattern_2_loop fuel (LED_Pattern_2_entry w)) = Some ExitBreak
  /\ trace (world_of r) =
       trace w
       ++ [EvWrite P1 (Z.lor (Z.land (P1_OUT w) 0xFE) RED_LED_ON);
           EvWrite P2 (Z.lor (Z.land (P2_OUT w) 0xF8) RGB_LED_RED)]
       ++ flat_map (fun j => [EvWrite P9 (Z.of_nat j); EvDelay 100;
                              EvRead (P10_IN w (reads w + j))]) (seq 0 (S k))
  /\ reads (world_of r) = (reads w + S k)%nat
  /\ P9_OUT (world_of r) = Z.of_nat k
  /\ P1_OUT (world_of r) = Z.lor (Z.land (P1_OUT w) 0xFE) RED_LED_ON
  /\ P2_OUT (world_of r) = Z.lor (Z.land (P2_OUT w) 0xF8) RGB_LED_RED.
Proof.
  intros Hfuel Hk Hheld Hlast. cbn zeta.
  destruct (counting_routine_stops 100 0x01 (fun c => c <=? 0xFF) (fun c => c + 1)
              LED_Pattern_2_body 0 256 fuel k RED_LED_ON RGB_LED_RED
              (LED_Pattern_2 fuel) w LED_Pattern_2_body_run LED_Pattern_2_trips)
    as (Hv & He & H1 & H2 & H9 & Hr & Ht);
    try (unfold RED_LED_ON, RGB_LED_RED; lia); try assumption.
  - apply LED_Pattern_2_unfold.
  - destruct (Z.eqb_spec (switch_code w k) 1) as [Heq | _]; [contradiction |].
    rewrite iter_up, uint8_small in H9 by lia.
    repeat (split; [assumption |]). split; [| repeat split; assumption].
    rewrite Ht. do 2 apply f_equal.
    apply flat_map_seq_ext. intros j Hj.
    rewrite iter_up, uint8_small by lia. reflexivity.
Qed.

Lemma Pattern2_stops_when_switch_changes_witness :
  let r := LED_Pattern_2 256 (switch_flip 3 0x01 0x00) in
  value_of r = Some tt
  /\ reads (world_of r) = 4%nat
  /\ P9_OUT (world_of r) = 3.
Proof.
  assert (H := Pattern2_stops_when_switch_changes 256 (switch_flip 3 0x01 0x00) 3).
  cbn zeta in H.
  assert (H' : (256 <= 256)%nat) by lia. specialize (H H'). clear H'.
  assert (H' : (3 < 256)%nat) by lia. specialize (H H'). clear H'.
  assert (H' : forall j, (j < 3)%nat -> switch_code (switch_flip 3 0x01 0x00) j = 0x01).
  { intros j Hj. do 3 (destruct j as [| j]; [reflexivity |]). lia. }
  specialize (H H'). clear H'.
  assert (H' : switch_code (switch_flip 3 0x01 0x00) 3 <> 0x01)
    by (vm_compute; discriminate).
  specialize (H H'). clear H'.
  destruct H as (Hv & _ & _ & Hr & H9 & _).
  cbn zeta. repeat split; assumption.
Defined.

(** ** Pattern 3 *)

(** X7: [LED_Pattern_3] turns the onboard LED off and the tri-color LED blue,
    then counts down: it performs steps 0..k, step j writing 255 - j to the
    bank, waiting 100 ms and sampling the switches once, where k is the first
    step whose resample differs from 0x02, or 255 if there is none; then it
    returns with the bank showing 255 - k.  With the switches held at 0x02
    all of 255, 254, ..., 0 are written. *)
Theorem Pattern3_counts_down_until_switch_changes (fuel : nat) (w : World) (k : nat) :
  (256 <= fuel)%nat -> (k <= 255)%nat ->
  (forall j, (j < k)%nat -> switch_code w j = 0x02) ->
  (k = 255%nat \/ switch_code w k <> 0x02) ->
  let r := LED_Pattern_3 fuel w in
  value_of r = Some tt
  /\ trace (world_of r) =
       trace w
       ++ [EvWrite P1 (Z.land (P1_OUT w) 0xFE);
           EvWrite P2 (Z.lor (Z.land (P2_OUT w) 0xF8) RGB_LED_BLUE)]
       ++ flat_map (fun j => [EvWrite P9 (255 - Z.of_nat j); EvDelay 100;
                              EvRead (P10_IN w (reads w + j))]) (seq 0 (S k))
  /\ reads (world_of r) = (reads w + S k)%nat
  /\ P9_OUT (world_of r) = 255 - Z.of_nat k
  /\ value_of (LED1_Status (world_of r)) = Some RED_LED_OFF
  /\ value_of (LED2_Status (world_of r)) = Some RGB_LED_BLUE.
Proof.
  intros Hfuel Hk Hheld Hlast. cbn zeta.
  destruct (counting_routine_stops 100 0x02 (fun c => c >=? 0) (fun c => c - 1)
              LED_Pattern_3_body 0xFF 256 fuel k RED_LED_OFF RGB_LED_BLUE
              (LED_Pattern_3 fuel) w LED_Pattern_3_body_run LED_Pattern_3_trips)
    as (Hv & _ & H1 & H2 & H9 & Hr & Ht);
    try (unfold RED_LED_OFF, RGB_LED_BLUE; lia); try assumption.
  - apply LED_Pattern_3_unfold.
  - rewrite iter_down, uint8_small in H9 by lia.
    unfold RED_LED_OFF in H1, Ht. rewrite Z.lor_0_r in H1, Ht.
    unfold LED1_Status, LED2_Status, bind, get_OUT, ret, value_of.
    cbn [fst snd]. rewrite H1, H2.
    split; [exact Hv |]. split; [| split; [exact Hr | split; [exact H9 |]]].
    + rewrite Ht. do 2 apply f_equal.
      apply flat_map_seq_ext. intros j Hj.
      rewrite iter_down, uint8_small by lia. reflexivity.
    + split; f_equal.
      * rewrite <- Z.land_assoc. change (Z.land 254 1) with 0.
        apply Z.land_0_r.
      * rewrite <- (led2_word _ RGB_LED_BLUE) by (unfold RGB_LED_BLUE; lia).
        apply led2_word_low. unfold RGB_LED_BLUE. lia.
Qed.

Lemma Pattern3_counts_down_until_switch_changes_witness :
  P9_OUT (world_of (LED_Pattern_3 256 (board 0x02))) = 0
  /\ reads (world_of (LED_Pattern_3 256 (board 0x02))) = 256%nat
  /\ P9_OUT (world_of (LED_Pattern_3 256 (switch_flip 5 0x02 0x06))) = 250.
Proof.
  split; [| split].
  - apply (Pattern3_counts_down_until_switch_changes 256 (board 0x02) 255).
    + lia.
    + lia.
    + intros j _. reflexivity.
    + left. reflexivity.
  - apply (Pattern3_counts_down_until_switch_changes 256 (board 0x02) 255).
    + lia.
    + lia.
    + intros j _. reflexivity.
    + left. reflexivity.
  - apply (Pattern3_counts_down_until_switch_changes 256 (switch_flip 5 0x02 0x06) 5).
    + lia.
    + lia.
    + intros j Hj. do 5 (destruct j as [| j]; [reflexivity |]). lia.
    + right. vm_compute. discriminate.
Defined.

(** ** Pattern 4 *)

Lemma land_land_same (x m : Z) : Z.land (Z.land x m) m = Z.land x m.
Proof. rewrite <- Z.land_assoc, Z.land_diag. reflexivity. Qed.

(** The world after one whole blink. *)
Lemma after_blink_run (w : World) :
  after_blink w =
    mkWorld (Z.land (P1_OUT w) 0xFE) (Z.land (P2_OUT w) 0xF8) PMOD_8LD_ALL_OFF
      (P10_IN w) (S (reads w))
      (trace w ++ blink_trace (P1_OUT w) (P2_OUT w) w 1).
Proof.
  destruct w as [p1 p2 p9 inp rd tr]. run_blink.
  unfold blink_trace. cbn [seq flat_map app P10_IN reads].
  rewrite Nat.add_0_r. led_words. repeat rewrite <- app_assoc. reflexivity.
Qed.

Lemma iter_blink_fields (k : nat) (w : World) :
  let w' := Nat.iter k after_blink w in
  P10_IN w' = P10_IN w
  /\ reads w' = (reads w + k)%nat
  /\ Z.land (P1_OUT w') 0xFE = Z.land (P1_OUT w) 0xFE
  /\ Z.land (P2_OUT w') 0xF8 = Z.land (P2_OUT w) 0xF8
  /\ trace w' = trace w ++ blink_trace (P1_OUT w) (P2_OUT w) w k.
Proof.
  induction k as [| k IH]; cbn zeta.
  - cbn. rewrite Nat.add_0_r, app_nil_r. repeat split.
  - cbn zeta in IH. destruct IH as (Hin & Hrd & H1 & H2 & Ht).
    rewrite Nat.iter_succ, after_blink_run.
    cbn [P1_OUT P2_OUT P9_OUT P10_IN reads trace].
    rewrite !land_land_same.
    split; [exact Hin |]. split; [rewrite Hrd; lia |].
    split; [exact H1 |]. split; [exact H2 |].
    rewrite Ht, <- app_assoc. f_equal.
    unfold blink_trace.
    rewrite (seq_S k), flat_map_app. f_equal.
    cbn [seq flat_map app Nat.add]. rewrite Hin, Hrd, H1, H2, Nat.add_0_r.
    reflexivity.
Qed.

Lemma switch_code_iter_blink (k j : nat) (w : World) :
  switch_code (Nat.iter k after_blink w) j = switch_code w (k + j).
Proof.
  destruct (iter_blink_fields k w) as (Hin & Hrd & _).
  unfold switch_code. rewrite Hin, Hrd, Nat.add_assoc. reflexivity.
Qed.

(** While the samples read 0x04 the loop goes round. *)
Lemma blink_loop_continues (k : nat) :
  forall fuel w,
    (forall j, (j < k)%nat -> switch_code w j = 0x04) ->
    while_1 (k + fuel) LED_Pattern_4_body w =
    while_1 fuel LED_Pattern_4_body (Nat.iter k after_blink w).
Proof.
  induction k as [| k IH]; intros fuel w Hheld.
  - reflexivity.
  - cbn [Nat.add].
    rewrite (while_1_step (k + fuel) _ w (after_blink w) Continue).
    + rewrite IH.
      * rewrite <- Nat.iter_succ_r. reflexivity.
      * intros j Hj. rewrite switch_code_after_blink. apply Hheld. lia.
    + rewrite LED_Pattern_4_body_run, (Hheld O) by lia. reflexivity.
Qed.

Lemma total_delay_app (l1 l2 : list Event) :
  total_delay (l1 ++ l2) = total_delay l1 + total_delay l2.
Proof.
  induction l1 as [| [p v | ms | raw] l1 IH]; cbn [app total_delay];
    rewrite ?IH; lia.
Qed.

Lemma total_delay_blink_trace (p1 p2 : Z) (w : World) (k : nat) :
  total_delay (blink_trace p1 p2 w k) = 2000 * Z.of_nat k.
Proof.
  induction k as [| k IH]; [reflexivity |].
  unfold blink_trace in *. rewrite seq_S, flat_map_app, total_delay_app, IH.
  cbn [flat_map app total_delay]. lia.
Qed.

(** X8: as long as the switches read 0x04 at the end of each cycle
    [LED_Pattern_4] does not return: observed for any number [n] of
    iterations, it has taken [n] samples, produced [n] whole on/off cycles
    (2000 ms of delay each) and is still in its loop. *)
Theorem Pattern4_runs_while_switch_held (n : nat) (w : World) :
  (forall j, (j < n)%nat -> switch_code w j = 0x04) ->
  let r := LED_Pattern_4 n w in
  value_of r = None
  /\ reads (world_of r) = (reads w + n)%nat
  /\ trace (world_of r) = trace w ++ blink_trace (P1_OUT w) (P2_OUT w) w n
  /\ total_delay (blink_trace (P1_OUT w) (P2_OUT w) w n) = 2000 * Z.of_nat n.
Proof.
  intros Hheld. cbn zeta. unfold LED_Pattern_4.
  assert (Hrun : while_1 n LED_Pattern_4_body w = (None, Nat.iter n after_blink w)).
  { rewrite <- (Nat.add_0_r n) at 1.
    rewrite (blink_loop_continues n 0 w Hheld). reflexivity. }
  rewrite Hrun.
  destruct (iter_blink_fields n w) as (_ & Hrd & _ & _ & Ht).
  unfold value_of, world_of. cbn [fst snd].
  repeat split; try assumption. apply total_delay_blink_trace.
Qed.

Lemma Pattern4_runs_while_switch_held_witness :
  value_of (LED_Pattern_4 5 (board 0x04)) = None
  /\ reads (world_of (LED_Pattern_4 5 (board 0x04))) = 5%nat.
Proof.
  assert (H : forall j, (j < 5)%nat -> switch_code (board 0x04) j = 0x04)
    by (intros j _; reflexivity).
  split; apply (Pattern4_runs_while_switch_held 5 (board 0x04) H).
Defined.

(** X9: [LED_Pattern_4] returns at the end of the first cycle whose resample
    differs from 0x04: it has then produced exactly k + 1 on/off cycles, each
    of them 1000 ms on and 1000 ms off, and leaves the bank, the onboard LED
    and the tri-color LED off. *)
Theorem Pattern4_returns_when_switch_changes (fuel : nat) (w : World) (k : nat) :
  (k < fuel)%nat ->
  (forall j, (j < k)%nat -> switch_code w j = 0x04) ->
  switch_code w k <> 0x04 ->
  let r := LED_Pattern_4 fuel w in
  value_of r = Some tt
  /\ reads (world_of r) = (reads w + S k)%nat
  /\ trace (world_of r) = trace w ++ blink_trace (P1_OUT w) (P2_OUT w) w (S k)
  /\ total_delay (blink_trace (P1_OUT w) (P2_OUT w) w (S k)) = 2000 * Z.of_nat (S k)
  /\ P9_OUT (world_of r) = PMOD_8LD_ALL_OFF
  /\ value_of (LED1_Status (world_of r)) = Some RED_LED_OFF
  /\ value_of (LED2_Status (world_of r)) = Some RGB_LED_OFF.
Proof.
  intros Hk Hheld Hlast. cbn zeta. unfold LED_Pattern_4.
  replace fuel with (k + S (fuel - S k))%nat by lia.
  rewrite (blink_loop_continues k _ w Hheld).
  rewrite (while_1_step _ _ _ (after_blink (Nat.iter k after_blink w)) Break).
  2:{ rewrite LED_Pattern_4_body_run, switch_code_iter_blink, Nat.add_0_r.
      destruct (Z.eqb_spec (switch_code w k) 4); [contradiction | reflexivity]. }
  rewrite <- Nat.iter_succ.
  destruct (iter_blink_fields (S k) w) as (_ & Hrd & _ & _ & Ht).
  cbn zeta in Hrd, Ht.
  unfold value_of, world_of, LED1_Status, LED2_Status, bind, get_OUT, ret.
  cbn [fst snd].
  split; [reflexivity |]. split; [exact Hrd |]. split; [exact Ht |].
  split; [apply total_delay_blink_trace |].
  rewrite Nat.iter_succ, after_blink_run. cbn [P1_OUT P2_OUT P9_OUT].
  split; [reflexivity |].
  split; f_equal; rewrite <- Z.land_assoc; apply Z.land_0_r.
Qed.

Lemma Pattern4_returns_when_switch_changes_witness :
  value_of (LED_Pattern_4 3 (switch_flip 2 0x04 0x00)) = Some tt
  /\ reads (world_of (LED_Pattern_4 3 (switch_flip 2 0x04 0x00))) = 3%nat.
Proof.
  assert (H : forall j, (j < 2)%nat -> switch_code (switch_flip 2 0x04 0x00) j = 0x04).
  { intros j Hj. do 2 (destruct j as [| j]; [reflexivity |]). lia. }
  assert (H' : switch_code (switch_flip 2 0x04 0x00) 2 <> 0x04)
    by (vm_compute; discriminate).
  assert (Hk : (2 < 3)%nat) by lia.
  split; apply (Pattern4_returns_when_switch_changes 3 (switch_flip 2 0x04 0x00) 2 Hk H H').
Defined.

(** ** How long the selector can block *)

Lemma total_delay_counting_trace (ms : Z) (val : nat -> Z) (w : World) (n : nat) :
  total_delay (counting_trace ms val w n) = ms * Z.of_nat n.
Proof.
  induction n as [| n IH]; [cbn; lia |].
  unfold counting_trace in *. rewrite seq_S, flat_map_app, total_delay_app, IH.
  cbn [flat_map app total_delay]. lia.
Qed.

(** Pattern 1 returns after at most its two 1000 ms delays and takes no
    sample. *)
Lemma LED_Pattern_1_bounded (button_status : Z) (w : World) :
  exists evs,
    LED_Pattern_1 button_status w
    = (Some tt, mkWorld (P1_OUT (world_of (LED_Pattern_1 button_status w)))
                  (P2_OUT (world_of (LED_Pattern_1 button_status w)))
                  (P9_OUT (world_of (LED_Pattern_1 button_status w)))
                  (P10_IN w) (reads w) (trace w ++ evs))
    /\ 0 <= total_delay evs <= 2000.
Proof.
  destruct (button_code_dec button_status) as [Hin | Hout].
  - destruct w as [p1 p2 p9 inp rd tr]. simpl in Hin.
    destruct Hin as [<- | [<- | [<- | [<- | []]]]];
      unfold LED_Pattern_1; cbn [Z.eqb Pos.eqb]; run_out;
      repeat rewrite <- app_assoc; cbn [app];
      eexists; (split; [reflexivity | cbn; lia]).
  - exists []. rewrite (LED_Pattern_1_no_case button_status w Hout).
    destruct w; cbn. rewrite app_nil_r. split; [reflexivity | lia].
Qed.

(** A counting routine returns after at most [trips] iterations. *)
Lemma counting_routine_bounded (ms code : Z) cond next (body : Z -> M Flow) (i0 : Z)
    (trips fuel : nat) (v1 v2 : Z) (c : M unit) (w : World) :
  (forall v w,
      body v w =
        (Some (if negb (switch_code w 0 =? code) then Break else Continue),
         after_step ms v w)) ->
  (forall j, cond (Nat.iter j next i0) = true <-> (j < trips)%nat) ->
  (let w1 := world_of ((LED1_Output v1 ;; LED2_Output v2) w) in
   c w = (match value_of (for_loop fuel cond next body i0 w1) with
          | Some _ => Some tt
          | None => None
          end, world_of (for_loop fuel cond next body i0 w1))) ->
  (trips <= fuel)%nat ->
  exists n evs,
    (n <= trips)%nat
    /\ value_of (c w) = Some tt
    /\ reads (world_of (c w)) = (reads w + n)%nat
    /\ trace (world_of (c w)) = trace w ++ evs
    /\ total_delay evs = ms * Z.of_nat n.
Proof.
  intros Hbody Htrips Hc Hfuel. cbn zeta in Hc.
  destruct (entry_fields v1 v2 w) as (_ & _ & _ & _ & Hrd & Htr).
  cbn zeta in Hrd, Htr.
  set (w1 := world_of ((LED1_Output v1 ;; LED2_Output v2) w)) in *.
  destruct (counted_loop_run ms code cond next body Hbody i0 trips Htrips fuel w1)
    as (n & Hw & Hle & Hn & _ & Hv).
  cbn zeta in Hw, Hv.
  destruct (after_steps_fields ms next n i0 w1) as (_ & _ & _ & Hr & Ht).
  cbn zeta in Hr, Ht.
  exists n. eexists.
  rewrite Hc. clear Hc.
  unfold world_of, value_of in Hw, Hv |- *. cbn [fst snd].
  rewrite Hw, Hr, Ht, Htr, Hrd, <- app_assoc.
  split; [exact Hn |].
  split.
  { destruct (fst (for_loop fuel cond next body i0 w1)) as [e |];
      [reflexivity |]. exfalso. lia. }
  split; [reflexivity |]. split; [reflexivity |].
  rewrite total_delay_app, total_delay_counting_trace. cbn. lia.
Qed.

(** X10: unless the switch code is 0x04, [LED_Controller] gives control back
    to the poll loop whatever the switches do in the meantime: it returns
    within 256 loop iterations, having taken at most 256 switch samples and
    waited at most 25600 ms in [Clock_Delay1ms]. *)
Theorem LED_Controller_returns_within_bound (fuel : nat)
    (button_status switch_status : Z) (w : World) :
  (256 <= fuel)%nat -> switch_status <> 0x04 ->
  let r := LED_Controller fuel button_status switch_status w in
  value_of r = Some tt
  /\ (reads w <= reads (world_of r) <= reads w + 256)%nat
  /\ 0 <= total_delay (new_events w (world_of r)) <= 25600.
Proof.
  intros Hfuel Hsw. cbn zeta.
  assert (Hp1 : let r := LED_Pattern_1 button_status w in
                value_of r = Some tt
                /\ (reads w <= reads (world_of r) <= reads w + 256)%nat
                /\ 0 <= total_delay (new_events w (world_of r)) <= 25600).
  { cbn zeta. destruct (LED_Pattern_1_bounded button_status w) as (evs & Hrun & Hd).
    rewrite Hrun. unfold value_of, world_of. cbn [fst snd reads].
    rewrite (new_events_app w _ evs) by reflexivity.
    split; [reflexivity |]. split; lia. }
  assert (Hcount : forall (c : M unit) (ms : Z) (trips : nat),
             0 <= ms -> ms * Z.of_nat trips <= 25600 -> (trips <= 256)%nat ->
             (exists n evs,
                 (n <= trips)%nat
                 /\ value_of (c w) = Some tt
                 /\ reads (world_of (c w)) = (reads w + n)%nat
                 /\ trace (world_of (c w)) = trace w ++ evs
                 /\ total_delay evs = ms * Z.of_nat n) ->
             value_of (c w) = Some tt
             /\ (reads w <= reads (world_of (c w)) <= reads w + 256)%nat
             /\ 0 <= total_delay (new_events w (world_of (c w))) <= 25600).
  { intros c ms trips Hms Hmax Htr (n & evs & Hn & Hv & Hr & Ht & Hd).
    rewrite (new_events_app w _ evs Ht), Hd, Hr.
    split; [exact Hv |]. split; [lia |]. nia. }
  unfold LED_Controller.
  destruct (Z.eqb_spec switch_status 0); [exact Hp1 |].
  destruct (Z.eqb_spec switch_status 1).
  { apply (Hcount _ 100 256%nat); try lia.
    apply (counting_routine_bounded 100 0x01 (fun c => c <=? 0xFF) (fun c => c + 1)
             LED_Pattern_2_body 0 256 fuel RED_LED_ON RGB_LED_RED _ w
             LED_Pattern_2_body_run LED_Pattern_2_trips);
      [apply LED_Pattern_2_unfold | exact Hfuel]. }
  destruct (Z.eqb_spec switch_status 2).
  { apply (Hcount _ 100 256%nat); try lia.
    apply (counting_routine_bounded 100 0x02 (fun c => c >=? 0) (fun c => c - 1)
             LED_Pattern_3_body 0xFF 256 fuel RED_LED_OFF RGB_LED_BLUE _ w
             LED_Pattern_3_body_run LED_Pattern_3_trips);
      [apply LED_Pattern_3_unfold | exact Hfuel]. }
  destruct (Z.eqb_spec switch_status 4); [contradiction |].
  destruct (Z.eqb_spec switch_status 8); [| exact Hp1].
  apply (Hcount _ 500 8%nat); try lia.
  apply (counting_routine_bounded 500 0x08 (fun c => c <=? 128) (fun c => c * 2)
           LED_Pattern_5_body 0x01 8 fuel RED_LED_OFF RGB_LED_OFF _ w
           LED_Pattern_5_body_run LED_Pattern_5_trips);
    [apply LED_Pattern_5_unfold | lia].
Qed.

Lemma LED_Controller_returns_within_bound_witness :
  let r := LED_Controller 256 0x12 0x01 (board 0x01) in
  value_of r = Some tt
  /\ (reads (board 0x01) <= reads (world_of r) <= reads (board 0x01) + 256)%nat
  /\ 0 <= total_delay (new_events (board 0x01) (world_of r)) <= 25600.
Proof.
  apply (LED_Controller_returns_within_bound 256 0x12 0x01 (board 0x01)).
  - lia.
  - discriminate.
Defined.

(** * Initialization and the poll loop *)

Ltac run_machine :=
  lazy beta iota zeta delta
    [main_init Clock_Init48MHz LED1_Init LED2_Init Buttons_Init PMOD_8LD_Init
     PMOD_SWT_Init and_cfg or_cfg and_OUT or_OUT get_cfg set_cfg mbind mret
     lift machine_of io cfg P1_IN button_reads get_OUT set_OUT bind ret emit
     world_of value_of fst snd P1_OUT P2_OUT P9_OUT P10_IN reads trace
     PortId_eqb CfgReg_eqb andb].

(** Turns the register contents of the start machine into variables. *)
Ltac name_registers c :=
  repeat match goal with
         | |- context [c ?p ?r] =>
             let x := fresh "x" in generalize (c p r); intros x
         end.

(** ** The initialization sequence *)

(** X11: [Buttons_Init] never clears a direction bit: it leaves bits 1 and 4
    of [P1->DIR], the two button pins, as they were and sets every other bit
    of that register; it selects the pull-ups (bits 1 and 4 of [P1->REN] and
    [P1->OUT] set, the other bits of [P1->OUT] kept) and the GPIO function of
    the two pins, and writes no register of another port. *)
Theorem Buttons_Init_sets_pullups_keeps_direction (m : Machine) :
  let m' := machine_of (Buttons_Init m) in
  Z.land (cfg m' Port1 DIR) 0x12 = Z.land (cfg m Port1 DIR) 0x12
  /\ Z.land (cfg m' Port1 DIR) 0xED = 0xED
  /\ Z.land (cfg m' Port1 REN) 0x12 = 0x12
  /\ Z.land (P1_OUT (io m')) 0x12 = 0x12
  /\ Z.land (P1_OUT (io m')) 0xED = Z.land (P1_OUT (io m)) 0xED
  /\ Z.land (cfg m' Port1 SEL0) 0x12 = 0
  /\ Z.land (cfg m' Port1 SEL1) 0x12 = 0
  /\ (forall r, cfg m' Port2 r = cfg m Port2 r)
  /\ (forall r, cfg m' Port9 r = cfg m Port9 r)
  /\ (forall r, cfg m' Port10 r = cfg m Port10 r)
  /\ P2_OUT (io m') = P2_OUT (io m) /\ P9_OUT (io m') = P9_OUT (io m).
Proof.
  destruct m as [[p1 p2 p9 inp rd tr] c b br]. run_machine.
  name_registers c.
  repeat split; try (intros r; destruct r; reflexivity); bits8x.
Qed.

(** X12: what [main] has set up when it enters its loop, from any register
    contents: the tri-color LED and the bank are off and the button pull-ups
    selected, while the onboard LED bit is as it was (no [*_Init] writes it);
    the LED pins are outputs, the bank port is all outputs, the switch pins
    are inputs, the button pins keep the direction they had; all pins used
    have the GPIO function; pull-up enable and high drive strength are set
    where the code asks for them. *)
Theorem main_init_postcondition (m : Machine) :
  let m' := machine_of (main_init m) in
  fst (main_init m) = Some tt
  /\ (Z.land (P2_OUT (io m')) 0x07 = 0
      /\ P9_OUT (io m') = 0
      /\ Z.land (P1_OUT (io m')) 0x12 = 0x12
      /\ Z.land (P1_OUT (io m')) 0x01 = Z.land (P1_OUT (io m)) 0x01)
  /\ (Z.land (cfg m' Port1 DIR) 0xED = 0xED
      /\ Z.land (cfg m' Port1 DIR) 0x12 = Z.land (cfg m Port1 DIR) 0x12
      /\ Z.land (cfg m' Port2 DIR) 0x07 = 0x07
      /\ cfg m' Port9 DIR = 0xFF
      /\ Z.land (cfg m' Port10 DIR) 0x0F = 0)
  /\ (Z.land (cfg m' Port1 SEL0) 0x13 = 0 /\ Z.land (cfg m' Port1 SEL1) 0x13 = 0
      /\ Z.land (cfg m' Port2 SEL0) 0x07 = 0 /\ Z.land (cfg m' Port2 SEL1) 0x07 = 0
      /\ cfg m' Port9 SEL0 = 0 /\ cfg m' Port9 SEL1 = 0
      /\ Z.land (cfg m' Port10 SEL0) 0x0F = 0
      /\ Z.land (cfg m' Port10 SEL1) 0x0F = 0)
  /\ (Z.land (cfg m' Port1 REN) 0x12 = 0x12
      /\ Z.land (cfg m' Port2 DS) 0x07 = 0x07
      /\ cfg m' Port9 DS = 0xFF).
Proof.
  destruct m as [[p1 p2 p9 inp rd tr] c b br]. run_machine.
  name_registers c.
  repeat split; bits8x.
Qed.

(** X13: the initialization sequence is idempotent: running it a second time
    changes no configuration register and no output register. *)
Theorem main_init_idempotent (m : Machine) :
  let m1 := machine_of (main_init m) in
  let m2 := machine_of (main_init m1) in
  (forall p r, cfg m2 p r = cfg m1 p r)
  /\ same_outputs (io m2) (io m1).
Proof.
  destruct m as [[p1 p2 p9 inp rd tr] c b br]. cbn zeta. split.
  - intros p r. destruct p, r; run_machine; name_registers c;
      try reflexivity; bits8x.
  - unfold same_outputs. run_machine. repeat split; bits8x.
Qed.

(** ** The two input functions *)

Lemma button_mask_codes (x : Z) : In (Z.land x 0x12) [0x00; 0x10; 0x02; 0x12].
Proof.
  assert (H : Z.land x 0x12
              = Z.lor (if Z.testbit x 1 then 0x02 else 0)
                  (if Z.testbit x 4 then 0x10 else 0)).
  { apply Z.bits_inj'. intros n Hn. rewrite Z.land_spec.
    destruct (Z.testbit x 1) eqn:E1, (Z.testbit x 4) eqn:E4;
      bit_cases n; rewrite ?E1, ?E4;
      try (match goal with
           | |- context [Z.testbit 18 ?k] =>
               let v := eval vm_compute in (Z.testbit 18 k) in
               change (Z.testbit 18 k) with v
           end; rewrite ?andb_false_r; reflexivity);
      rewrite (byte_testbit_high 18 n), andb_false_r by lia;
      symmetry; apply byte_testbit_high; cbn; lia. }
  rewrite H. destruct (Z.testbit x 1), (Z.testbit x 4); cbn; tauto.
Qed.

Lemma switch_mask_range (x : Z) : 0 <= Z.land x 0xF <= 15.
Proof.
  pose proof (Z.land_ones x 4) as E.
  change (Z.ones 4) with 15 in E. change (2 ^ 4) with 16 in E.
  rewrite E by lia.
  assert (0 <= x mod 16 < 16) by (apply Z.mod_pos_bound; lia).
  lia.
Qed.

(** X14: whatever the input registers hold, [Get_Buttons_Status] returns one
    of the four codes 0x00, 0x10, 0x02, 0x12 for which [LED_Pattern_1] has a
    case, and [Get_PMOD_SWT_Status] returns a code in 0..15; each takes one
    sample and writes nothing. *)
Theorem input_status_codes (m : Machine) :
  (exists button_status,
      Get_Buttons_Status m
      = (Some button_status,
         mkMachine (io m) (cfg m) (P1_IN m) (S (button_reads m)))
      /\ In button_status [0x00; 0x10; 0x02; 0x12])
  /\ (exists switch_status,
         value_of (Get_PMOD_SWT_Status (io m)) = Some switch_status
         /\ 0 <= switch_status <= 15
         /\ same_outputs (world_of (Get_PMOD_SWT_Status (io m))) (io m)
         /\ reads (world_of (Get_PMOD_SWT_Status (io m))) = S (reads (io m))).
Proof.
  split.
  - eexists. split; [reflexivity |]. apply button_mask_codes.
  - eexists. split; [reflexivity |].
    split; [apply switch_mask_range |]. repeat split.
Qed.

(** ** Every round of the poll loop refreshes the display *)

Lemma trace_extends_refl (w : World) : trace_extends w w.
Proof. exists []. rewrite app_nil_r. reflexivity. Qed.

Lemma trace_extends_trans (w1 w2 w3 : World) :
  trace_extends w1 w2 -> trace_extends w2 w3 -> trace_extends w1 w3.
Proof.
  intros [e1 H1] [e2 H2]. exists (e1 ++ e2). rewrite H2, H1, app_assoc.
  reflexivity.
Qed.

Lemma extends_LED_Pattern_4_body : steps_within trace_extends LED_Pattern_4_body.
Proof.
  intros w. rewrite LED_Pattern_4_body_run. unfold world_of. cbn [snd].
  rewrite after_blink_run. eexists. reflexivity.
Qed.

Lemma writes_port_app_l (p : Port) (l1 l2 : list Event) :
  writes_port p l1 -> writes_port p (l1 ++ l2).
Proof. intros [v H]. exists v. apply in_or_app. left. exact H. Qed.

Lemma writes_port_app_r (p : Port) (l1 l2 : list Event) :
  writes_port p l2 -> writes_port p (l1 ++ l2).
Proof. intros [v H]. exists v. apply in_or_app. right. exact H. Qed.

Ltac writes_here := eexists; cbn [In app]; tauto.

(** Pattern 1 with one of its four codes writes the three ports. *)
Lemma LED_Pattern_1_writes_all (button_status : Z) (w : World) :
  In button_status [0x00; 0x10; 0x02; 0x12] ->
  exists evs,
    trace (world_of (LED_Pattern_1 button_status w)) = trace w ++ evs
    /\ writes_port P1 evs /\ writes_port P2 evs /\ writes_port P9 evs.
Proof.
  intros Hin. destruct w as [p1 p2 p9 inp rd tr]. simpl in Hin.
  destruct Hin as [<- | [<- | [<- | [<- | []]]]];
    unfold LED_Pattern_1; cbn [Z.eqb Pos.eqb]; run_out;
    repeat rewrite <- app_assoc; cbn [app];
    eexists; (split; [reflexivity |]); repeat split; writes_here.
Qed.

(** A counting routine observed for at least one iteration writes the three
    ports. *)
Lemma counting_routine_writes_all (ms code : Z) cond next (body : Z -> M Flow)
    (i0 : Z) (trips fuel : nat) (v1 v2 : Z) (c : M unit) (w : World) :
  (forall v w,
      body v w =
        (Some (if negb (switch_code w 0 =? code) then Break else Continue),
         after_step ms v w)) ->
  (forall j, cond (Nat.iter j next i0) = true <-> (j < trips)%nat) ->
  (let w1 := world_of ((LED1_Output v1 ;; LED2_Output v2) w) in
   c w = (match value_of (for_loop fuel cond next body i0 w1) with
          | Some _ => Some tt
          | None => None
          end, world_of (for_loop fuel cond next body i0 w1))) ->
  (1 <= trips)%nat -> (1 <= fuel)%nat ->
  exists evs,
    trace (world_of (c w)) = trace w ++ evs
    /\ writes_port P1 evs /\ writes_port P2 evs /\ writes_port P9 evs.
Proof.
  intros Hbody Htrips Hc Htr1 Hfuel. cbn zeta in Hc.
  destruct (entry_fields v1 v2 w) as (_ & _ & _ & _ & _ & Htr).
  cbn zeta in Htr.
  set (w1 := world_of ((LED1_Output v1 ;; LED2_Output v2) w)) in *.
  destruct (counted_loop_run ms code cond next body Hbody i0 trips Htrips fuel w1)
    as (n & Hw & _ & _ & _ & Hv).
  cbn zeta in Hw, Hv.
  assert (Hn : (1 <= n)%nat).
  { destruct (value_of (for_loop fuel cond next body i0 w1)) as [[|] |].
    - destruct Hv as [-> _]. exact Htr1.
    - destruct Hv as (m & -> & _). lia.
    - destruct Hv as (-> & _). exact Hfuel. }
  destruct n as [| n]; [lia |].
  destruct (after_steps_fields ms next (S n) i0 w1) as (_ & _ & _ & _ & Ht).
  cbn zeta in Ht.
  rewrite Hc. clear Hc Hv.
  unfold world_of in Hw |- *. cbn [snd].
  rewrite Hw, Ht, Htr, <- app_assoc.
  unfold counting_trace. cbn [seq flat_map app].
  eexists. split; [reflexivity |]. repeat split; writes_here.
Qed.

Lemma LED_Pattern_4_writes_all (fuel : nat) (w : World) :
  (1 <= fuel)%nat ->
  exists evs,
    trace (world_of (LED_Pattern_4 fuel w)) = trace w ++ evs
    /\ writes_port P1 evs /\ writes_port P2 evs /\ writes_port P9 evs.
Proof.
  intros Hfuel. destruct fuel as [| fuel]; [lia |].
  assert (Hrest : exists evs,
             trace (world_of (LED_Pattern_4 (S fuel) w))
             = trace (after_blink w) ++ evs).
  { unfold LED_Pattern_4.
    destruct (Z.eqb_spec (switch_code w 0) 0x04) as [Heq | Hne].
    - rewrite (while_1_step fuel _ w (after_blink w) Continue).
      + apply (within_while_1 _ trace_extends_refl trace_extends_trans fuel _
                 extends_LED_Pattern_4_body (after_blink w)).
      + rewrite LED_Pattern_4_body_run.
        destruct (Z.eqb_spec (switch_code w 0) 0x04); [reflexivity | contradiction].
    - rewrite (while_1_step fuel _ w (after_blink w) Break).
      + exists []. rewrite app_nil_r. reflexivity.
      + rewrite LED_Pattern_4_body_run.
        destruct (Z.eqb_spec (switch_code w 0) 0x04); [contradiction | reflexivity]. }
  destruct Hrest as [evs Hrest]. rewrite Hrest, after_blink_run.
  cbn [trace]. unfold blink_trace. cbn [seq flat_map app].
  rewrite <- app_assoc. eexists. split; [reflexivity |].
  repeat split; apply writes_port_app_l; writes_here.
Qed.

Lemma LED_Controller_writes_all (fuel : nat) (button_status switch_status : Z)
    (w : World) :
  (1 <= fuel)%nat -> In button_status [0x00; 0x10; 0x02; 0x12] ->
  exists evs,
    trace (world_of (LED_Controller fuel button_status switch_status w))
    = trace w ++ evs
    /\ writes_port P1 evs /\ writes_port P2 evs /\ writes_port P9 evs.
Proof.
  intros Hfuel Hin. unfold LED_Controller.
  destruct (switch_status =? 0); [apply LED_Pattern_1_writes_all, Hin |].
  destruct (switch_status =? 1).
  { apply (counting_routine_writes_all 100 0x01 (fun c => c <=? 0xFF)
             (fun c => c + 1) LED_Pattern_2_body 0 256 fuel RED_LED_ON RGB_LED_RED
             _ w LED_Pattern_2_body_run LED_Pattern_2_trips);
      [apply LED_Pattern_2_unfold | lia | exact Hfuel]. }
  destruct (switch_status =? 2).
  { apply (counting_routine_writes_all 100 0x02 (fun c => c >=? 0)
             (fun c => c - 1) LED_Pattern_3_body 0xFF 256 fuel RED_LED_OFF
             RGB_LED_BLUE _ w LED_Pattern_3_body_run LED_Pattern_3_trips);
      [apply LED_Pattern_3_unfold | lia | exact Hfuel]. }
  destruct (switch_status =? 4); [apply LED_Pattern_4_writes_all, Hfuel |].
  destruct (switch_status =? 8); [| apply LED_Pattern_1_writes_all, Hin].
  apply (counting_routine_writes_all 500 0x08 (fun c => c <=? 128)
           (fun c => c * 2) LED_Pattern_5_body 0x01 8 fuel RED_LED_OFF RGB_LED_OFF
           _ w LED_Pattern_5_body_run LED_Pattern_5_trips);
    [apply LED_Pattern_5_unfold | lia | exact Hfuel].
Qed.

(** One round of the poll loop, in terms of the run of the selector. *)
Lemma main_iteration_run (fuel : nat) (m : Machine) :
  let button_status := Z.land (P1_IN m (button_reads m)) 0x12 in
  let switch_status := Z.land (P10_IN (io m) (reads (io m))) 0xF in
  let w1 := world_of (Get_PMOD_SWT_Status (io m)) in
  let rc := LED_Controller fuel button_status switch_status w1 in
  main_iteration fuel m =
    (value_of rc,
     mkMachine
       match value_of rc with
       | Some _ => world_of (Clock_Delay1ms 100 (world_of rc))
       | None => world_of rc
       end (cfg m) (P1_IN m) (S (button_reads m))).
Proof.
  destruct m as [[p1 p2 p9 inp rd tr] c b br].
  lazy beta iota zeta delta
    [main_iteration mbind lift Get_Buttons_Status Get_PMOD_SWT_Status
     get_P10_IN bind ret emit value_of world_of fst snd io cfg P1_IN
     button_reads Clock_Delay1ms P1_OUT P2_OUT P9_OUT P10_IN reads trace].
  destruct (LED_Controller fuel _ _ _) as [[[] |] w2]; reflexivity.
Qed.

(** X15: in every round of the poll loop the button code handed to
    [LED_Controller] is one that [LED_Pattern_1] has a case for, so the
    display is always driven: observed for at least one loop iteration of the
    routine, a round takes one button sample, then one switch sample, and
    then writes each of the three output ports at least once; a round whose
    routine returns ends with the 100 ms delay of [main]. *)
Theorem main_iteration_drives_display (fuel : nat) (m : Machine) :
  (1 <= fuel)%nat ->
  let r := main_iteration fuel m in
  exists evs,
    trace (io (machine_of r))
    = trace (io m) ++ EvRead (P10_IN (io m) (reads (io m))) :: evs
    /\ writes_port P1 evs /\ writes_port P2 evs /\ writes_port P9 evs
    /\ button_reads (machine_of r) = S (button_reads m)
    /\ (fst r = Some tt -> exists evs', evs = evs' ++ [EvDelay 100]).
Proof.
  intros Hfuel. cbn zeta. rewrite main_iteration_run. cbn zeta.
  set (b := Z.land (P1_IN m (button_reads m)) 18).
  assert (Hb : In b [0x00; 0x10; 0x02; 0x12]) by apply button_mask_codes.
  set (s := Z.land (P10_IN (io m) (reads (io m))) 15).
  set (w1 := world_of (Get_PMOD_SWT_Status (io m))).
  assert (Hw1 : trace w1 = trace (io m) ++ [EvRead (P10_IN (io m) (reads (io m)))])
    by reflexivity.
  destruct (LED_Controller_writes_all fuel b s w1 Hfuel Hb)
    as (evs & Ht & H1 & H2 & H9).
  unfold machine_of, value_of, world_of in *. cbn [fst snd io button_reads].
  destruct (LED_Controller fuel b s w1) as [[[] |] w2]; cbn [fst snd] in *.
  - exists (evs ++ [EvDelay 100]).
    unfold Clock_Delay1ms, emit. cbn [snd trace].
    rewrite Ht, Hw1, <- !app_assoc. cbn [app].
    split; [reflexivity |].
    repeat (split; [apply writes_port_app_l; assumption |]).
    split; [reflexivity |]. intros _. exists evs. reflexivity.
  - exists evs. rewrite Ht, Hw1, <- app_assoc. cbn [app].
    split; [reflexivity |].
    repeat (split; [assumption |]).
    split; [reflexivity | discriminate].
Qed.

Lemma main_iteration_drives_display_witness :
  exists evs,
    trace (io (machine_of (main_iteration 1 (machine_at 0 0x12 0x04))))
    = trace (io (machine_at 0 0x12 0x04))
      ++ EvRead (P10_IN (io (machine_at 0 0x12 0x04))
                   (reads (io (machine_at 0 0x12 0x04)))) :: evs
    /\ writes_port P1 evs /\ writes_port P2 evs /\ writes_port P9 evs.
Proof.
  destruct (main_iteration_drives_display 1 (machine_at 0 0x12 0x04) (Nat.le_refl 1))
    as (evs & Ht & H1 & H2 & H9 & _).
  exists evs. repeat split; assumption.
Defined.

(** ** The poll loop keeps the configuration *)

Lemma main_iteration_frame (fuel : nat) (m : Machine) :
  let m' := machine_of (main_iteration fuel m) in
  cfg m' = cfg m /\ same_other_bits (io m) (io m').
Proof.
  cbn zeta. rewrite main_iteration_run. cbn zeta.
  unfold machine_of. cbn [snd cfg io].
  split; [reflexivity |].
  set (w1 := world_of (Get_PMOD_SWT_Status (io m))).
  assert (H1 : same_other_bits (io m) w1)
    by apply other_bits_Get_PMOD_SWT_Status.
  set (rc := LED_Controller fuel _ _ w1).
  assert (H2 : same_other_bits w1 (world_of rc))
    by apply other_bits_LED_Controller.
  apply same_other_bits_trans with w1; [exact H1 |].
  destruct (value_of rc); [| exact H2].
  apply same_other_bits_trans with (world_of rc); [exact H2 |].
  apply other_bits_Clock_Delay1ms.
Qed.

Lemma main_loop_frame (fuel iterations : nat) :
  forall m,
    let r := main_loop iterations fuel m in
    fst r = None
    /\ cfg (machine_of r) = cfg m
    /\ same_other_bits (io m) (io (machine_of r)).
Proof.
  induction iterations as [| n IH]; intros m; cbn zeta.
  - cbn. split; [reflexivity |]. split; [reflexivity |].
    apply same_other_bits_refl.
  - cbn [main_loop]. unfold mbind.
    destruct (main_iteration_frame fuel m) as [Hc Hb]. unfold machine_of in *.
    destruct (main_iteration fuel m) as [[[] |] m1]; cbn [fst snd] in *.
    + destruct (IH m1) as (Hv & Hc' & Hb'). unfold machine_of in *.
      split; [exact Hv |]. split; [congruence |].
      apply same_other_bits_trans with (io m1); assumption.
    + split; [reflexivity |]. split; assumption.
Qed.

Lemma main_init_pullups (m : Machine) :
  exists m0,
    main_init m = (Some tt, m0)
    /\ Z.land (P1_OUT (io m0)) 0x12 = 0x12
    /\ Z.land (cfg m0 Port1 REN) 0x12 = 0x12.
Proof.
  destruct m as [[p1 p2 p9 inp rd tr] c b br]. run_machine.
  eexists. split; [reflexivity |].
  cbn [io cfg P1_OUT]. name_registers c. split; bits8x.
Qed.

(** X16: [main] never returns, and however many rounds of its poll loop are
    observed, the configuration registers are as the initialization left
    them and the pull-ups of the two buttons are still selected (bits 1 and
    4 of [P1->OUT] and of [P1->REN] set): no display routine disturbs the
    button inputs. *)
Theorem main_keeps_button_pullups (iterations fuel : nat) (m : Machine) :
  let r := main iterations fuel m in
  let m0 := machine_of (main_init m) in
  fst r = None
  /\ (forall p reg, cfg (machine_of r) p reg = cfg m0 p reg)
  /\ Z.land (P1_OUT (io (machine_of r))) 0x12 = 0x12
  /\ Z.land (cfg (machine_of r) Port1 REN) 0x12 = 0x12
  /\ same_other_bits (io m0) (io (machine_of r)).
Proof.
  cbn zeta. destruct (main_init_pullups m) as (m0 & Hrun & Hout & Hren).
  unfold main, mbind. rewrite Hrun.
  change (machine_of (Some tt, m0)) with m0.
  destruct (main_loop_frame fuel iterations m0) as (Hn & Hc & Hb).
  split; [exact Hn |].
  split; [intros p reg; rewrite Hc; reflexivity |].
  split.
  { destruct Hb as [H1 _].
    assert (E : forall x, Z.land x 0x12 = Z.land (Z.land x 0xFE) 0x12)
      by (intros x; rewrite <- Z.land_assoc; reflexivity).
    rewrite E, H1, <- E. exact Hout. }
  split; [rewrite Hc; exact Hren | exact Hb].
Qed.
